(** * AIDP Video Forge: the filter-chain compiler, the command compiler,
      the preset catalog and the remote job wait loop

    A shallow embedding of [src/presets.py], [src/gpu_pipeline.py]
    (the probes, [_build_filter_chain], [build_gpu_command],
    [get_gpu_info]), [src/aidp_client.py] ([_hash_file], [upload_file],
    [submit_job], [get_job_status], [wait_for_job], [download_file]) and
    the wait loop of [batch_process] in [src/forge.py], with the
    properties of the specification stated and settled against it. *)

From Stdlib Require Import ZArith QArith Qround Qpower String List Bool.
From Stdlib Require Import DecimalString Sorted Lia Lqa.
From stdpp Require Import base option gmap strings list.
Import ListNotations.

Local Open Scope string_scope.
Local Open Scope list_scope.

(** ** Python values, truthiness, exceptions *)

Module Py.

(** The numbers a preset holds.  The code never computes with a float of a
    preset: it tests it for truth and formats it with [str].  A float is
    therefore kept as its [repr], the shortest decimal string that reads
    back as the same float, which identifies it. *)
Inductive pynum : Type :=
| PyInt (z : Z)
| PyFloat (repr : string).

(** [str(z)] for an int. *)
Definition str_int (z : Z) : string := NilZero.string_of_int (Z.to_int z).

(** [str(n)], as an f-string [{n}] formats it. *)
Definition str (n : pynum) : string :=
  match n with
  | PyInt z => str_int z
  | PyFloat repr => repr
  end.

(** Python's truth-value protocol ([__bool__] / [__len__]). *)
Class Truthy (A : Type) := truthy : A -> bool.

#[global] Instance truthy_bool : Truthy bool := fun b => b.

#[global] Instance truthy_pynum : Truthy pynum := fun n =>
  match n with
  | PyInt z => negb (z =? 0)%Z
  | PyFloat repr => negb (String.eqb repr "0.0" || String.eqb repr "-0.0")
  end.

#[global] Instance truthy_string : Truthy string := fun s =>
  match s with
  | EmptyString => false
  | String _ _ => true
  end.

#[global] Instance truthy_list {A} : Truthy (list A) := fun l =>
  match l with
  | [] => false
  | _ :: _ => true
  end.

(** [None] is false; [d.get(k)] is [None] when [k] is absent. *)
#[global] Instance truthy_option {A} `{Truthy A} : Truthy (option A) := fun o =>
  match o with
  | Some v => truthy v
  | None => false
  end.

(** [k in d], for the entry [o] of [d] at [k]. *)
Definition has_key {A} (o : option A) : bool :=
  match o with
  | Some _ => true
  | None => false
  end.

(** [needle in haystack] on strings. *)
Fixpoint contains (needle haystack : string) : bool :=
  String.prefix needle haystack ||
  match haystack with
  | EmptyString => false
  | String _ rest => contains needle rest
  end.

(** The exceptions of the modelled code: the one it raises itself, the
    ones the interpreter raises for it ([KeyError], and [TypeError],
    [AttributeError] and [ValueError], kept by their class, the message
    being the interpreter's), and the ones that reach it from outside, from
    the file system or the transport, kept by the name of their class and
    their text ([OSError], [aiohttp.ClientPayloadError],
    [asyncio.TimeoutError], ...). *)
Inductive exn : Type :=
| AIDPError (msg : string)
| KeyError (key : string)
| TypeError
| AttributeError
| ValueError
| Outside (class_name detail : string).

(** The outcome of a call.  [OutOfFuel] is no Python outcome: it marks a run
    of a loop that the fuel of the model cut off. *)
Inductive result (A : Type) : Type :=
| Ok (a : A)
| Raise (e : exn)
| OutOfFuel.
Arguments Ok {A} a.
Arguments Raise {A} e.
Arguments OutOfFuel {A}.

#[global] Instance result_bind : MBind result := fun A B f r =>
  match r with
  | Ok a => f a
  | Raise e => Raise e
  | OutOfFuel => OutOfFuel
  end.

#[global] Instance result_ret : MRet result := fun A a => Ok a.

(** [d[k]], for the entry [o] of [d] at [k]. *)
Definition subscript {A} (key : string) (o : option A) : result A :=
  match o with
  | Some v => Ok v
  | None => Raise (KeyError key)
  end.

(** *** JSON documents

    What [await resp.json()] gives.  The code takes three things of a value
    held in a document: it compares it with a string literal, it formats it
    in an f-string, and it hands it on.  A list or a dict held inside a
    document is therefore kept as the text [str] gives for it. *)
Inductive value : Type :=
| PyNone
| PyBool (b : bool)
| PyNum (n : pynum)
| PyStr (s : string)
| PyNested (text : string).

(** [str(v)], as an f-string [{v}] formats it. *)
Definition format (v : value) : string :=
  match v with
  | PyNone => "None"
  | PyBool true => "True"
  | PyBool false => "False"
  | PyNum n => str n
  | PyStr s => s
  | PyNested text => text
  end.

(** [v == s] for a string literal [s]: true of that string only. *)
Definition eq_str (v : value) (s : string) : bool :=
  match v with
  | PyStr t => String.eqb t s
  | _ => false
  end.

(** A document: a dict, by its members, or anything else JSON allows at the
    top ([null], a boolean, a number, a string, or a list as
    [PyNested]). *)
Inductive json : Type :=
| Dict (members : gmap string value)
| NotADict (v : value).

(** [doc[key]]: a [KeyError] on a dict without the key, a [TypeError] on
    whatever is no dict. *)
Definition getitem (doc : json) (key : string) : result value :=
  match doc with
  | Dict members => subscript key (members !! key)
  | NotADict _ => Raise TypeError
  end.

(** [doc.get(key, fallback)] *)
Definition get (doc : json) (key : string) (fallback : value)
  : result value :=
  match doc with
  | Dict members => Ok (default fallback (members !! key))
  | NotADict _ => Raise AttributeError
  end.

(** *** Floats: [a - b] and [x > n]

    [time.time()] returns a double and [a - b] rounds the exact difference
    to the nearest double, to the even one of two that are equally near.
    Doubles are kept as the rationals they are.  The difference of two
    doubles is a multiple of 2^-1074, so rounding it never underflows:
    the nearest double is the nearest number with a significand of 53 bits,
    or an infinity when that number reaches 2^1024. *)

(** [floor(log2 x)] for a positive [x]. *)
Definition ilog2 (x : Q) : Z :=
  let e := (Z.log2 (Qnum x) - Z.log2 (Zpos (Qden x)))%Z in
  if Qle_bool (2 ^ e) x then e else (e - 1)%Z.

(** The integer nearest to [x], the even one of the two when [x] is
    halfway. *)
Definition round_half_even (x : Q) : Z :=
  let f := Qfloor x in
  match Qcompare (x - inject_Z f) (1 # 2) with
  | Lt => f
  | Gt => (f + 1)%Z
  | Eq => if Z.even f then f else (f + 1)%Z
  end.

(** The number with a significand of 53 bits nearest to [x]. *)
Definition round53 (x : Q) : Q :=
  match Qcompare x 0 with
  | Eq => 0
  | Gt => let ulp := (2 ^ (ilog2 x - 52))%Q in
          (inject_Z (round_half_even (x / ulp)) * ulp)%Q
  | Lt => let ulp := (2 ^ (ilog2 (- x) - 52))%Q in
          (- (inject_Z (round_half_even (- x / ulp)) * ulp))%Q
  end.

Inductive pyfloat : Type :=
| Finite (q : Q)
| Infinite (negative : bool).

(** [a - b] on two doubles. *)
Definition float_sub (a b : Q) : pyfloat :=
  let r := round53 (a - b) in
  if Qle_bool (2 ^ 1024) r then Infinite false
  else if Qle_bool r (- 2 ^ 1024) then Infinite true
  else Finite r.

(** [x > n] for a float [x] and an int [n]: Python compares the two
    exactly. *)
Definition float_gt_int (x : pyfloat) (n : Z) : bool :=
  match x with
  | Finite q => negb (Qle_bool q (inject_Z n))
  | Infinite negative => negb negative
  end.

End Py.
Import Py.

(** ** presets.py *)

Module presets.

(** A preset is a dictionary with a fixed vocabulary of keys, every one
    optional.  Each key is a field holding [None] when the key is absent.
    The types are those of the catalog's values and of the uses in
    [gpu_pipeline.py] and [aidp_client.py]. *)
Record Preset : Type := {
  p_description : option string;
  p_encoder : option string;
  p_speed : option string;
  p_cq : option pynum;
  p_rate_control : option string;
  p_bitrate : option string;
  p_maxrate : option string;
  p_bufsize : option string;
  p_bframes : option pynum;
  p_tune : option string;
  p_cpu_preset : option string;
  p_crf : option pynum;
  p_hwaccel : option bool;
  p_use_cuda : option bool;
  p_scale : option (pynum * pynum);
  p_deinterlace : option bool;
  p_tonemap : option bool;
  p_fps : option pynum;
  p_eq : option (list (string * pynum));
  p_unsharp : option string;
  p_grain : option pynum;
  p_letterbox : option pynum;
  p_vignette : option pynum;
  p_audio_codec : option string;
  p_audio_bitrate : option string;
  p_audio_sample_rate : option pynum;
  p_faststart : option bool;
  p_min_vram_gb : option pynum;
  p_preferred_gpu : option string;
  p_cuda_compute : option string;
  p_preferred_lut : option string
}.

(** One [key: value] entry of a dictionary literal. *)
Inductive item : Type :=
| k_description (v : string)
| k_encoder (v : string)
| k_speed (v : string)
| k_cq (v : pynum)
| k_rate_control (v : string)
| k_bitrate (v : string)
| k_maxrate (v : string)
| k_bufsize (v : string)
| k_bframes (v : pynum)
| k_tune (v : string)
| k_cpu_preset (v : string)
| k_crf (v : pynum)
| k_hwaccel (v : bool)
| k_use_cuda (v : bool)
| k_scale (v : pynum * pynum)
| k_deinterlace (v : bool)
| k_tonemap (v : bool)
| k_fps (v : pynum)
| k_eq (v : list (string * pynum))
| k_unsharp (v : string)
| k_grain (v : pynum)
| k_letterbox (v : pynum)
| k_vignette (v : pynum)
| k_audio_codec (v : string)
| k_audio_bitrate (v : string)
| k_audio_sample_rate (v : pynum)
| k_faststart (v : bool)
| k_min_vram_gb (v : pynum)
| k_preferred_gpu (v : string)
| k_cuda_compute (v : string)
| k_preferred_lut (v : string).

(** The value the literal gives a key: that of its last entry for it. *)
Definition entry {A} (sel : item -> option A) (literal : list item) : option A :=
  fold_left (fun acc i => match sel i with Some v => Some v | None => acc end)
            literal None.

(** The dictionary a literal [{k1: v1, ...}] denotes. *)
Definition dict (literal : list item) : Preset := {|
  p_description := entry (fun i => match i with k_description v => Some v | _ => None end) literal;
  p_encoder := entry (fun i => match i with k_encoder v => Some v | _ => None end) literal;
  p_speed := entry (fun i => match i with k_speed v => Some v | _ => None end) literal;
  p_cq := entry (fun i => match i with k_cq v => Some v | _ => None end) literal;
  p_rate_control := entry (fun i => match i with k_rate_control v => Some v | _ => None end) literal;
  p_bitrate := entry (fun i => match i with k_bitrate v => Some v | _ => None end) literal;
  p_maxrate := entry (fun i => match i with k_maxrate v => Some v | _ => None end) literal;
  p_bufsize := entry (fun i => match i with k_bufsize v => Some v | _ => None end) literal;
  p_bframes := entry (fun i => match i with k_bframes v => Some v | _ => None end) literal;
  p_tune := entry (fun i => match i with k_tune v => Some v | _ => None end) literal;
  p_cpu_preset := entry (fun i => match i with k_cpu_preset v => Some v | _ => None end) literal;
  p_crf := entry (fun i => match i with k_crf v => Some v | _ => None end) literal;
  p_hwaccel := entry (fun i => match i with k_hwaccel v => Some v | _ => None end) literal;
  p_use_cuda := entry (fun i => match i with k_use_cuda v => Some v | _ => None end) literal;
  p_scale := entry (fun i => match i with k_scale v => Some v | _ => None end) literal;
  p_deinterlace := entry (fun i => match i with k_deinterlace v => Some v | _ => None end) literal;
  p_tonemap := entry (fun i => match i with k_tonemap v => Some v | _ => None end) literal;
  p_fps := entry (fun i => match i with k_fps v => Some v | _ => None end) literal;
  p_eq := entry (fun i => match i with k_eq v => Some v | _ => None end) literal;
  p_unsharp := entry (fun i => match i with k_unsharp v => Some v | _ => None end) literal;
  p_grain := entry (fun i => match i with k_grain v => Some v | _ => None end) literal;
  p_letterbox := entry (fun i => match i with k_letterbox v => Some v | _ => None end) literal;
  p_vignette := entry (fun i => match i with k_vignette v => Some v | _ => None end) literal;
  p_audio_codec := entry (fun i => match i with k_audio_codec v => Some v | _ => None end) literal;
  p_audio_bitrate := entry (fun i => match i with k_audio_bitrate v => Some v | _ => None end) literal;
  p_audio_sample_rate := entry (fun i => match i with k_audio_sample_rate v => Some v | _ => None end) literal;
  p_faststart := entry (fun i => match i with k_faststart v => Some v | _ => None end) literal;
  p_min_vram_gb := entry (fun i => match i with k_min_vram_gb v => Some v | _ => None end) literal;
  p_preferred_gpu := entry (fun i => match i with k_preferred_gpu v => Some v | _ => None end) literal;
  p_cuda_compute := entry (fun i => match i with k_cuda_compute v => Some v | _ => None end) literal;
  p_preferred_lut := entry (fun i => match i with k_preferred_lut v => Some v | _ => None end) literal
|}.

(** The catalog, in the order of the source. *)
Definition PRESETS_literal : list (string * Preset) := [
  ("default", dict [
     k_description "Standard web-optimized output with GPU encoding";
     k_encoder "h264_nvenc"; k_speed "medium"; k_cq (PyInt 23);
     k_rate_control "vbr"; k_audio_codec "aac"; k_audio_bitrate "128k";
     k_faststart true; k_min_vram_gb (PyInt 4)]);
  ("cinematic", dict [
     k_description "Film-like output with teal-orange grade, grain, and letterbox";
     k_encoder "h264_nvenc"; k_speed "quality"; k_cq (PyInt 20);
     k_rate_control "vbr"; k_bframes (PyInt 4);
     k_eq [("brightness", PyFloat "0.02"); ("contrast", PyFloat "1.1");
           ("saturation", PyFloat "1.15")];
     k_grain (PyInt 8); k_letterbox (PyFloat "2.39");
     k_unsharp "5:5:0.5:5:5:0.5";
     k_audio_codec "aac"; k_audio_bitrate "192k"; k_faststart true;
     k_min_vram_gb (PyInt 6); k_preferred_lut "Cinematic_Teal_Orange.cube"]);
  ("broadcast", dict [
     k_description "Broadcast-safe output for TV/streaming platforms";
     k_encoder "h264_nvenc"; k_speed "quality"; k_cq (PyInt 18);
     k_rate_control "cbr"; k_bitrate "15M"; k_maxrate "20M"; k_bufsize "30M";
     k_scale (PyInt 1920, PyInt 1080); k_fps (PyFloat "29.97");
     k_audio_codec "aac"; k_audio_bitrate "256k";
     k_audio_sample_rate (PyInt 48000); k_faststart true;
     k_min_vram_gb (PyInt 6); k_preferred_lut "Broadcast_Safe.cube"]);
  ("social_vertical", dict [
     k_description "Vertical 9:16 output optimized for TikTok/Reels/Shorts";
     k_encoder "h264_nvenc"; k_speed "fast"; k_cq (PyInt 22);
     k_rate_control "vbr"; k_scale (PyInt 1080, PyInt 1920); k_fps (PyInt 30);
     k_eq [("brightness", PyFloat "0.03"); ("contrast", PyFloat "1.08");
           ("saturation", PyFloat "1.2")];
     k_unsharp "3:3:0.8";
     k_audio_codec "aac"; k_audio_bitrate "128k"; k_faststart true;
     k_min_vram_gb (PyInt 4)]);
  ("hdr_to_sdr", dict [
     k_description "Convert HDR content to SDR with GPU tone mapping";
     k_encoder "h264_nvenc"; k_speed "medium"; k_cq (PyInt 20);
     k_rate_control "vbr"; k_hwaccel true; k_tonemap true;
     k_audio_codec "copy"; k_faststart true; k_min_vram_gb (PyInt 8);
     k_cuda_compute "7.5"]);
  ("hevc_master", dict [
     k_description "High-quality HEVC output for archival/master";
     k_encoder "hevc_nvenc"; k_speed "quality"; k_cq (PyInt 18);
     k_rate_control "vbr"; k_bframes (PyInt 4);
     k_audio_codec "aac"; k_audio_bitrate "320k";
     k_audio_sample_rate (PyInt 48000); k_faststart true;
     k_min_vram_gb (PyInt 8)]);
  ("fast_preview", dict [
     k_description "Fast preview encode for quick review";
     k_encoder "h264_nvenc"; k_speed "fastest"; k_cq (PyInt 28);
     k_rate_control "vbr"; k_scale (PyInt 1280, PyInt 720); k_fps (PyInt 30);
     k_audio_codec "aac"; k_audio_bitrate "96k"; k_faststart true;
     k_min_vram_gb (PyInt 2)]);
  ("youtube", dict [
     k_description "YouTube recommended settings with GPU encoding";
     k_encoder "h264_nvenc"; k_speed "medium"; k_cq (PyInt 18);
     k_rate_control "vbr"; k_bitrate "0"; k_maxrate "40M"; k_bufsize "80M";
     k_bframes (PyInt 2); k_scale (PyInt 3840, PyInt 2160); k_fps (PyInt 60);
     k_audio_codec "aac"; k_audio_bitrate "384k";
     k_audio_sample_rate (PyInt 48000); k_faststart true;
     k_min_vram_gb (PyInt 8)]);
  ("netflix", dict [
     k_description "Netflix delivery specification";
     k_encoder "hevc_nvenc"; k_speed "quality"; k_cq (PyInt 16);
     k_rate_control "vbr"; k_bitrate "0"; k_maxrate "25M"; k_bufsize "50M";
     k_bframes (PyInt 4); k_scale (PyInt 3840, PyInt 2160);
     k_fps (PyFloat "23.976");
     k_audio_codec "aac"; k_audio_bitrate "448k";
     k_audio_sample_rate (PyInt 48000); k_faststart true;
     k_min_vram_gb (PyInt 10)]);
  ("vintage_film", dict [
     k_description "Vintage film look with faded colors and heavy grain";
     k_encoder "h264_nvenc"; k_speed "quality"; k_cq (PyInt 20);
     k_rate_control "vbr";
     k_eq [("brightness", PyFloat "-0.02"); ("contrast", PyFloat "0.95");
           ("saturation", PyFloat "0.7"); ("gamma", PyFloat "1.1")];
     k_grain (PyInt 25); k_vignette (PyFloat "0.4");
     k_letterbox (PyFloat "1.66");
     k_audio_codec "aac"; k_audio_bitrate "128k"; k_faststart true;
     k_min_vram_gb (PyInt 6); k_preferred_lut "Vintage_Fade.cube"]);
  ("documentary", dict [
     k_description "Clean, natural look for documentary content";
     k_encoder "h264_nvenc"; k_speed "quality"; k_cq (PyInt 19);
     k_rate_control "vbr";
     k_eq [("brightness", PyFloat "0.01"); ("contrast", PyFloat "1.02");
           ("saturation", PyFloat "0.95")];
     k_unsharp "3:3:0.3";
     k_audio_codec "aac"; k_audio_bitrate "192k"; k_faststart true;
     k_min_vram_gb (PyInt 6); k_preferred_lut "Documentary_Natural.cube"]);
  ("action", dict [
     k_description "High contrast, punchy colors for action content";
     k_encoder "h264_nvenc"; k_speed "medium"; k_cq (PyInt 19);
     k_rate_control "vbr"; k_bframes (PyInt 2);
     k_eq [("brightness", PyFloat "0.0"); ("contrast", PyFloat "1.25");
           ("saturation", PyFloat "1.3")];
     k_unsharp "5:5:1.0:5:5:0.5";
     k_audio_codec "aac"; k_audio_bitrate "256k"; k_faststart true;
     k_min_vram_gb (PyInt 6); k_preferred_lut "Blockbuster_Action.cube"])
].

Definition PRESETS : gmap string Preset := list_to_map PRESETS_literal.

(** [PRESETS.get(name, PRESETS["default"])]: the default argument is
    evaluated first, and its subscript is the one place that can raise. *)
Definition get_preset (name : string) : result Preset :=
  fallback ← subscript "default" (PRESETS !! "default");
  Ok (default fallback (PRESETS !! name)).

(** [list(PRESETS.keys())] *)
Definition list_presets : list string := map fst PRESETS_literal.

(** [PRESETS.get(name, {}).get("description", "No description available")] *)
Definition get_preset_description (name : string) : string :=
  let preset := default (dict []) (PRESETS !! name) in
  default "No description available" (p_description preset).

End presets.
Import presets.

(** ** gpu_pipeline.py *)

Module gpu_pipeline.

(** The object state: the path of the encoder binary and the two flags
    [_check_gpu_support] sets at construction. *)
Record GPUPipeline : Type := {
  ffmpeg_path : string;
  has_nvenc : bool;
  has_cuda : bool
}.

(** NVENC presets (quality/speed tradeoff) *)
Definition NVENC_PRESETS : gmap string string :=
  list_to_map [("fastest", "p1"); ("fast", "p2"); ("medium", "p4");
               ("slow", "p5"); ("quality", "p6"); ("best", "p7")].

(** The entries [_build_filter_chain] appends to [filters], one constructor
    per [append]; the flag tells the CUDA variant from the software one. *)
Inductive FilterStage : Type :=
| Upload
| Scale (w h : pynum) (accelerated : bool)
| Deinterlace (accelerated : bool)
| ToneMap (accelerated : bool)
| FrameRateConvert (fps : pynum)
| Download
| ColorLUT (lut_path : string)
| ColorCorrect (eq : list (string * pynum))
| Sharpen (unsharp : string)
| Grain (grain : pynum)
| Letterbox (aspect : pynum)
| Vignette (angle : pynum).

(** The string each [append] puts in [filters]. *)
Definition render (stage : FilterStage) : string :=
  match stage with
  | Upload => "hwupload_cuda"
  | Scale w h true => "scale_cuda=" +:+ str w +:+ ":" +:+ str h
  | Scale w h false => "scale=" +:+ str w +:+ ":" +:+ str h
  | Deinterlace true => "yadif_cuda=0:-1:0"
  | Deinterlace false => "yadif=0:-1:0"
  | ToneMap true => "tonemap_cuda=tonemap=hable:peak=100"
  | ToneMap false => "zscale=t=linear:npl=100,tonemap=hable,zscale=t=bt709"
  | FrameRateConvert fps => "fps=" +:+ str fps
  | Download => "hwdownload,format=nv12"
  | ColorLUT lut_path => "lut3d='" +:+ lut_path +:+ "'"
  | ColorCorrect eq =>
      "eq=" +:+
      String.concat "," (map (fun kv => fst kv +:+ "=" +:+ str (snd kv)) eq)
  | Sharpen unsharp => "unsharp=" +:+ unsharp
  | Grain grain => "noise=c0s=" +:+ str grain +:+ ":c0f=t+u"
  | Letterbox aspect =>
      "pad=iw:iw/" +:+ str aspect +:+ ":(ow-iw)/2:(oh-ih)/2:black"
  | Vignette angle => "vignette=angle=" +:+ str angle
  end.

(** The body of [_build_filter_chain] up to its [return]: the list
    [filters], statement by statement. *)
Definition filter_stages (self : GPUPipeline) (preset : Preset)
    (lut_path : option string) : result (list FilterStage) :=
  let filters := [] in
  let use_cuda := has_cuda self && default true (p_use_cuda preset) in
  (* Hardware upload if not already on GPU *)
  let filters :=
    if use_cuda && negb (default true (p_hwaccel preset))
    then filters ++ [Upload] else filters in
  (* Scaling *)
  filters ←
    (if has_key (p_scale preset) then
       wh ← subscript "scale" (p_scale preset);
       Ok (filters ++ [Scale (fst wh) (snd wh) use_cuda])
     else Ok filters);
  (* Deinterlacing *)
  let filters :=
    if truthy (p_deinterlace preset)
    then filters ++ [Deinterlace use_cuda] else filters in
  (* HDR to SDR tone mapping *)
  let filters :=
    if truthy (p_tonemap preset)
    then filters ++ [ToneMap use_cuda] else filters in
  (* Frame rate conversion *)
  filters ←
    (if has_key (p_fps preset) then
       fps ← subscript "fps" (p_fps preset);
       Ok (filters ++ [FrameRateConvert fps])
     else Ok filters);
  (* Download from GPU for CPU-based filters *)
  let needs_cpu_filters :=
    truthy lut_path || truthy (p_eq preset) || truthy (p_unsharp preset) in
  let filters :=
    if use_cuda && needs_cpu_filters
    then filters ++ [Download] else filters in
  (* Color grading with LUT *)
  let filters :=
    match lut_path with
    | Some lut => if truthy lut then filters ++ [ColorLUT lut] else filters
    | None => filters
    end in
  (* Color correction (eq filter) *)
  filters ←
    (if truthy (p_eq preset) then
       eq ← subscript "eq" (p_eq preset);
       Ok (filters ++ [ColorCorrect eq])
     else Ok filters);
  (* Sharpening *)
  filters ←
    (if truthy (p_unsharp preset) then
       unsharp ← subscript "unsharp" (p_unsharp preset);
       Ok (filters ++ [Sharpen unsharp])
     else Ok filters);
  (* Film grain (for cinematic look) *)
  filters ←
    (if truthy (p_grain preset) then
       grain ← subscript "grain" (p_grain preset);
       Ok (filters ++ [Grain grain])
     else Ok filters);
  (* Letterbox *)
  filters ←
    (if truthy (p_letterbox preset) then
       aspect ← subscript "letterbox" (p_letterbox preset);
       Ok (filters ++ [Letterbox aspect])
     else Ok filters);
  (* Vignette *)
  filters ←
    (if truthy (p_vignette preset) then
       angle ← subscript "vignette" (p_vignette preset);
       Ok (filters ++ [Vignette angle])
     else Ok filters);
  Ok filters.

(** [",".join(filters) if filters else ""] *)
Definition _build_filter_chain (self : GPUPipeline) (preset : Preset)
    (lut_path : option string) : result string :=
  filters ← filter_stages self preset lut_path;
  Ok (if truthy filters then String.concat "," (map render filters)
      else EmptyString).

Definition build_gpu_command (self : GPUPipeline)
    (input_path output_path : string) (preset : Preset)
    (lut_path : option string) : result (list string) :=
  let cmd := [ffmpeg_path self; "-hide_banner"; "-y"] in
  (* GPU hardware acceleration for decoding *)
  let cmd :=
    if default true (p_hwaccel preset) && has_nvenc self
    then cmd ++ ["-hwaccel"; "cuda"; "-hwaccel_output_format"; "cuda"]
    else cmd in
  let cmd := cmd ++ ["-i"; input_path] in
  (* Build filter chain *)
  filters ← _build_filter_chain self preset lut_path;
  let cmd := if truthy filters then cmd ++ ["-vf"; filters] else cmd in
  (* Video encoding *)
  let encoder :=
    default (if has_nvenc self then "h264_nvenc" else "libx264")
            (p_encoder preset) in
  let cmd := cmd ++ ["-c:v"; encoder] in
  cmd ←
    (if contains "nvenc" encoder then
       (* NVENC-specific options *)
       let nvenc_preset :=
         default "p4" (NVENC_PRESETS !! default "medium" (p_speed preset)) in
       let cmd := cmd ++ [
         "-preset"; nvenc_preset;
         "-rc"; default "vbr" (p_rate_control preset);
         "-cq"; str (default (PyInt 23) (p_cq preset));
         "-b:v"; default "0" (p_bitrate preset);
         "-maxrate"; default "50M" (p_maxrate preset);
         "-bufsize"; default "100M" (p_bufsize preset)] in
       (* GPU-specific tuning *)
       cmd ←
         (if truthy (p_tune preset) then
            tune ← subscript "tune" (p_tune preset);
            Ok (cmd ++ ["-tune"; tune])
          else Ok cmd);
       (* B-frames for better compression *)
       Ok (cmd ++ ["-bf"; str (default (PyInt 3) (p_bframes preset))])
     else
       (* CPU fallback (libx264/libx265) *)
       Ok (cmd ++ [
         "-preset"; default "medium" (p_cpu_preset preset);
         "-crf"; str (default (PyInt 23) (p_crf preset))]));
  (* Audio encoding *)
  let audio_codec := default "aac" (p_audio_codec preset) in
  let cmd :=
    if String.eqb audio_codec "copy" then cmd ++ ["-c:a"; "copy"]
    else cmd ++ [
      "-c:a"; audio_codec;
      "-b:a"; default "128k" (p_audio_bitrate preset);
      "-ar"; str (default (PyInt 48000) (p_audio_sample_rate preset))] in
  (* Output options *)
  let cmd :=
    if default true (p_faststart preset)
    then cmd ++ ["-movflags"; "+faststart"] else cmd in
  let cmd := cmd ++ [output_path] in
  Ok cmd.

End gpu_pipeline.
Import gpu_pipeline.

(** ** aidp_client.py *)

Module aidp_client.

(** What the code reads of an HTTP response: [resp.status],
    [await resp.text()] and [await resp.json()]. *)
Record Response (A : Type) : Type := {
  resp_status : Z;
  resp_text : string;
  resp_body : A
}.
Arguments resp_status {A} r.
Arguments resp_text {A} r.
Arguments resp_body {A} r.

(** A coroutine of the client: it runs from a state of the outside and ends
    with an outcome and the state it leaves. *)
Definition io (W A : Type) : Type := W -> result A * W.

#[global] Instance io_ret {W} : MRet (io W) := fun A a w => (Ok a, w).

#[global] Instance io_bind {W} : MBind (io W) := fun A B f m w =>
  match m w with
  | (Ok a, w') => f a w'
  | (Raise e, w') => (Raise e, w')
  | (OutOfFuel, w') => (OutOfFuel, w')
  end.

Definition raise {W A} (e : exn) : io W A := fun w => (Raise e, w).

Definition out_of_fuel {W A} : io W A := fun w => (OutOfFuel, w).

(** An operation of the outside that answers. *)
Definition ask {W A} (op : W -> A * W) : io W A := fun w =>
  (Ok (fst (op w)), snd (op w)).

(** An operation of the outside that only acts. *)
Definition act {W} (op : W -> W) : io W unit := fun w => (Ok tt, op w).

(** A pure step that may raise. *)
Definition pure {W A} (r : result A) : io W A := fun w => (r, w).

(** Everything outside the process, over a type [W] of its states: the
    clock, the transport session, the file system, the event loop's sleep
    and the terminal.  Each operation runs from a state and leaves the next
    one; nothing is assumed of what it answers.  A request and an operation
    on a file answer or raise; the clock, the sleep and the terminal
    answer.  A request stands for [await self._get_session()], which makes
    the session at the first call, for [session.get] and for what the code
    then reads of the response. *)
Class Network (W : Type) : Type := {
  (** [time.time()], in seconds: a double, as the rational it is *)
  time_time : W -> Q * W;
  (** [session.get(url)] on a job status URL, with what the code reads of the
      response; it raises when the transport does, or when reading the
      response does *)
  session_get_job : string -> io W (Response json);
  (** [session.get(url)] on a storage download URL, likewise *)
  session_get_download : string -> io W (Response json);
  (** [session.get(download_url)], given whatever the document held at
      [download_url]: the response, its body not yet read *)
  session_get_bytes : value -> io W (Response unit);
  (** one step of [resp.content.iter_chunked(8192)] on that response: the
      next chunk, or [None] when the body has ended *)
  iter_chunked : value -> io W (option string);
  (** [open(path, "wb")], which empties the file at [path] *)
  open_wb : string -> io W unit;
  (** [f.write(chunk)] on the file opened at [path] *)
  file_write : string -> string -> io W unit;
  (** [f.close()], as leaving the [with] block calls it *)
  file_close : string -> io W unit;
  (** [await asyncio.sleep(seconds)] *)
  asyncio_sleep : Z -> W -> W;
  (** [print(line)] *)
  print : string -> W -> W
}.

Record AIDPClient : Type := {
  api_url : string;
  api_key : string;
  wallet : string
}.

Section Client.
Context {W : Type} `{Network W}.

Definition get_job_status (self : AIDPClient) (job_id : string)
  : io W json :=
  resp ← session_get_job (api_url self +:+ "/v1/jobs/" +:+ job_id);
  if negb (resp_status resp =? 200)%Z then
    raise (AIDPError ("Status check failed: " +:+ resp_text resp))
  else mret (resp_body resp).

(** The [while True] loop of [wait_for_job]; [fuel] bounds the number of
    iterations the model runs.  [status] is a dict that the callback is
    given itself, not a copy: [callback status] ends with the document as
    the callback has left it. *)
Fixpoint wait_loop (fuel : nat) (self : AIDPClient) (job_id : string)
    (timeout poll_interval : Z)
    (progress_callback : option (json -> io W json))
    (start_time : Q) : io W json :=
  match fuel with
  | O => out_of_fuel
  | S fuel' =>
      status ← get_job_status self job_id;
      status ← match progress_callback with
               | Some callback => callback status
               | None => mret status
               end;
      state ← pure (getitem status "status");
      if eq_str state "completed" then mret status
      else
        state ← pure (getitem status "status");
        if eq_str state "failed" then
          detail ← pure (get status "error" (PyStr "Unknown error"));
          raise (AIDPError ("Job failed: " +:+ format detail))
        else
          now ← ask time_time;
          if float_gt_int (float_sub now start_time) timeout then
            raise (AIDPError ("Job timed out after " +:+ str_int timeout +:+
                              " seconds"))
          else
            _ ← act (asyncio_sleep poll_interval);
            wait_loop fuel' self job_id timeout poll_interval
                      progress_callback start_time
  end.

Definition wait_for_job (fuel : nat) (self : AIDPClient) (job_id : string)
    (timeout poll_interval : Z)
    (progress_callback : option (json -> io W json))
  : io W json :=
  start_time ← ask time_time;
  wait_loop fuel self job_id timeout poll_interval progress_callback
            start_time.

(** [async for chunk in resp.content.iter_chunked(8192): f.write(chunk)];
    [fuel] bounds the number of chunks the model reads. *)
Fixpoint write_chunks (fuel : nat) (url : value) (output_path : string)
  : io W unit :=
  match fuel with
  | O => out_of_fuel
  | S fuel' =>
      chunk ← iter_chunked url;
      match chunk with
      | Some chunk =>
          _ ← file_write output_path chunk;
          write_chunks fuel' url output_path
      | None => mret tt
      end
  end.

(** [with open(path, "wb") as f: body].  Leaving the block closes the
    file, also when [body] raises; an exception of that [close] is the one
    that leaves the block. *)
Definition with_open_wb {A} (path : string) (body : io W A) : io W A :=
  fun w =>
    match open_wb path w with
    | (Ok _, w1) =>
        match body w1 with
        | (Ok a, w2) =>
            match file_close path w2 with
            | (Ok _, w3) => (Ok a, w3)
            | (Raise e, w3) => (Raise e, w3)
            | (OutOfFuel, w3) => (OutOfFuel, w3)
            end
        | (Raise e, w2) =>
            match file_close path w2 with
            | (Ok _, w3) => (Raise e, w3)
            | (Raise e', w3) => (Raise e', w3)
            | (OutOfFuel, w3) => (OutOfFuel, w3)
            end
        | (OutOfFuel, w2) => (OutOfFuel, w2)
        end
    | (Raise e, w1) => (Raise e, w1)
    | (OutOfFuel, w1) => (OutOfFuel, w1)
    end.

(** [file_id] is whatever the caller read at [output_file_id]; the f-string
    of the URL formats it. *)
Definition download_file (fuel : nat) (self : AIDPClient) (file_id : value)
    (output_path : string) : io W string :=
  (* Get download URL *)
  resp ← session_get_download
           (api_url self +:+ "/v1/storage/download/" +:+ format file_id);
  if negb (resp_status resp =? 200)%Z then
    raise (AIDPError ("Download request failed: " +:+ resp_text resp))
  else
    let download_info := resp_body resp in
    (* Download file *)
    url ← pure (getitem download_info "download_url");
    resp ← session_get_bytes url;
    if negb (resp_status resp =? 200)%Z then
      raise (AIDPError ("File download failed: " +:+
                        str_int (resp_status resp)))
    else
      _ ← with_open_wb output_path (write_chunks fuel url output_path);
      mret output_path.

End Client.

End aidp_client.
Import aidp_client.

(** ** forge.py: the wait loop of [batch_process] *)

Module forge.

(** An entry of the list [jobs] that the submit loop builds. *)
Record BatchJob : Type := {
  job_id : string;
  input : string;
  output : string
}.

(** ["\n" + "=" * 50] *)
Definition rule_after_newline : string :=
  String (Ascii.ascii_of_nat 10) "==================================================".

Section Batch.
Context {W : Type} `{Network W}.

(** One iteration of [for job in jobs]; it yields the new value of
    [completed]. *)
Definition wait_one (fuel : nat) (client : AIDPClient) (total : nat)
    (completed : Z) (job : BatchJob) : io W Z :=
  result ← wait_for_job fuel client (job_id job) 3600 2 None;
  file_id ← pure (getitem result "output_file_id");
  _ ← download_file fuel client file_id (output job);
  let completed := (completed + 1)%Z in
  _ ← act (print ("Completed: " +:+ str_int completed +:+ "/" +:+
                  str_int (Z.of_nat total) +:+ " - " +:+ input job));
  mret completed.

(** [for job in jobs: ...], with [total] for [len(jobs)]. *)
Fixpoint wait_all (fuel : nat) (client : AIDPClient) (total : nat)
    (completed : Z) (jobs : list BatchJob) : io W Z :=
  match jobs with
  | [] => mret completed
  | job :: rest =>
      completed ← wait_one fuel client total completed job;
      wait_all fuel client total completed rest
  end.

(** [batch_process] from "Wait for all jobs" to its [return 0]. *)
Definition batch_process_wait (fuel : nat) (client : AIDPClient)
    (output_dir : string) (jobs : list BatchJob) : io W Z :=
  let completed := 0%Z in
  _ ← wait_all fuel client (length jobs) completed jobs;
  _ ← act (print rule_after_newline);
  _ ← act (print "Batch processing complete!");
  _ ← act (print ("Output directory: " +:+ output_dir));
  mret 0%Z.

End Batch.

End forge.
Import forge.

(** ** Runs of the wait loop that stay short of a terminal read *)

Module waiting.

(** A status document that ends no wait: it is a dict with a [status], and
    that is neither [completed] nor [failed]. *)
Definition pending (doc : json) : Prop :=
  exists state,
    getitem doc "status" = Ok state /\
    state <> PyStr "completed" /\ state <> PyStr "failed".

Section Rounds.
Context {W : Type} `{Network W}.

(** The call of the callback, when there is one. *)
Definition told (cb : option (json -> io W json)) (doc : json) : io W json :=
  match cb with
  | Some callback => callback doc
  | None => mret doc
  end.


End Rounds.

End waiting.
Import waiting.

(** ** A scripted outside, to run the client on concrete inputs *)

Module scripted.

(** What has happened outside.  A request is recorded when it is made, a
    chunk when it arrives, and an operation on a file when it succeeds. *)
Inductive event : Type :=
| GotJob (url : string)
| GotDownload (url : string)
| GotBytes (url : value)
| GotChunk (url : value) (chunk : string)
| Opened (path : string)
| Wrote (path : string) (chunk : string)
| Closed (path : string)
| Slept (seconds : Z)
| Printed (line : string).

(** The state of the outside: the clock and what has happened so far. *)
Record World : Type := {
  now : Q;
  log : list event
}.

(** What the script holds for an operation that answers or raises. *)
Inductive reply (A : Type) : Type :=
| Answers (a : A)
| Fails (e : exn).
Arguments Answers {A} a.
Arguments Fails {A} e.

Definition played {A} (r : reply A) : result A :=
  match r with
  | Answers a => Ok a
  | Fails e => Raise e
  end.

(** The script: how long a request takes, what the network answers, and
    what the disk does.  A job status URL is answered by the number of
    earlier reads of it, the body of a response by the number of chunks
    already read of it, and a write by the number of writes since the file
    was opened. *)
Record Remote : Type := {
  latency : Q;
  job_answers : string -> nat -> reply (Response json);
  download_answers : string -> reply (Response json);
  bytes_answers : value -> reply (Response unit);
  body_chunks : value -> nat -> reply (option string);
  disk_open : string -> reply unit;
  disk_write : string -> nat -> reply unit;
  disk_close : string -> reply unit
}.

Definition happened (e : event) (w : World) : World :=
  {| now := now w; log := log w ++ [e] |}.

Definition elapse (seconds : Q) (w : World) : World :=
  {| now := (now w + seconds)%Q; log := log w |}.

(** When the operation succeeded, [e] has happened. *)
Definition succeeded {A} (r : reply A) (e : event) (w : World) : World :=
  match r with
  | Answers _ => happened e w
  | Fails _ => w
  end.

(** The number of status reads of [url] so far. *)
Definition reads (url : string) (w : World) : nat :=
  List.length (List.filter (fun e => match e with
                                | GotJob u => String.eqb u url
                                | _ => false
                                end) (log w)).

(** The number of chunks that have arrived since the last
    [session.get(download_url)], counted on from [n]. *)
Fixpoint chunks_since_get (events : list event) (n : nat) : nat :=
  match events with
  | [] => n
  | GotBytes _ :: rest => chunks_since_get rest O
  | GotChunk _ _ :: rest => chunks_since_get rest (S n)
  | _ :: rest => chunks_since_get rest n
  end.

(** The number of writes since the last [open], counted on from [n]. *)
Fixpoint writes_since_open (events : list event) (n : nat) : nat :=
  match events with
  | [] => n
  | Opened _ :: rest => writes_since_open rest O
  | Wrote _ _ :: rest => writes_since_open rest (S n)
  | _ :: rest => writes_since_open rest n
  end.

Definition network (r : Remote) : Network World := {|
  time_time w := (now w, w);
  session_get_job url w :=
    (played (job_answers r url (reads url w)),
     elapse (latency r) (happened (GotJob url) w));
  session_get_download url w :=
    (played (download_answers r url),
     elapse (latency r) (happened (GotDownload url) w));
  session_get_bytes url w :=
    (played (bytes_answers r url),
     elapse (latency r) (happened (GotBytes url) w));
  iter_chunked url w :=
    let next := body_chunks r url (chunks_since_get (log w) O) in
    (played next,
     elapse (latency r)
            match next with
            | Answers (Some chunk) => happened (GotChunk url chunk) w
            | _ => w
            end);
  open_wb path w :=
    (played (disk_open r path), succeeded (disk_open r path) (Opened path) w);
  file_write path chunk w :=
    let outcome := disk_write r path (writes_since_open (log w) O) in
    (played outcome, succeeded outcome (Wrote path chunk) w);
  file_close path w :=
    (played (disk_close r path),
     succeeded (disk_close r path) (Closed path) w);
  asyncio_sleep seconds w :=
    elapse (inject_Z seconds) (happened (Slept seconds) w);
  print line w := happened (Printed line) w
|}.

Definition start : World := {| now := 0; log := [] |}.

Definition answer {A} (body : A) : Response A :=
  {| resp_status := 200; resp_text := EmptyString; resp_body := body |}.

(** The status document [{"status": state}], with [output_file_id] and
    [error] when given. *)
Definition snapshot (state : string) (file : option string)
    (detail : option string) : json :=
  Dict (list_to_map
          (("status", PyStr state) ::
           match file with
           | Some id => [("output_file_id", PyStr id)]
           | None => []
           end ++
           match detail with
           | Some text => [("error", PyStr text)]
           | None => []
           end)).

End scripted.

(** ** The shape of the compiled pipeline and of the command

    Closed forms of what [filter_stages] and [build_gpu_command] compute,
    proved equal to them below, and the vocabulary in which the properties
    of the pipeline are stated. *)

Module shape.

(** The place of a stage in the order of the [append]s of
    [_build_filter_chain]. *)
Definition rank (stage : FilterStage) : nat :=
  match stage with
  | Upload => 0
  | Scale _ _ _ => 1
  | Deinterlace _ => 2
  | ToneMap _ => 3
  | FrameRateConvert _ => 4
  | Download => 5
  | ColorLUT _ => 6
  | ColorCorrect _ => 7
  | Sharpen _ => 8
  | Grain _ => 9
  | Letterbox _ => 10
  | Vignette _ => 11
  end.

(** A stage that runs on the GPU. *)
Definition accelerated (stage : FilterStage) : bool :=
  match stage with
  | Scale _ _ a | Deinterlace a | ToneMap a => a
  | _ => false
  end.

(** The stages for which [_build_filter_chain] has no CUDA variant and that
    it appends after the download point. *)
Definition cpu_only (stage : FilterStage) : bool :=
  match stage with
  | ColorLUT _ | ColorCorrect _ | Sharpen _
  | Grain _ | Letterbox _ | Vignette _ => true
  | _ => false
  end.

Definition when (b : bool) (stage : FilterStage) : list FilterStage :=
  if b then [stage] else [].

Definition present {A} (o : option A) (mk : A -> FilterStage)
  : list FilterStage :=
  match o with
  | Some v => [mk v]
  | None => []
  end.

Definition requested {A} `{Truthy A} (o : option A) (mk : A -> FilterStage)
  : list FilterStage :=
  match o with
  | Some v => if truthy v then [mk v] else []
  | None => []
  end.

Definition use_cuda (self : GPUPipeline) (preset : Preset) : bool :=
  has_cuda self && default true (p_use_cuda preset).

Definition needs_cpu_filters (preset : Preset) (lut_path : option string)
  : bool :=
  truthy lut_path || truthy (p_eq preset) || truthy (p_unsharp preset).

Definition gpu_side (self : GPUPipeline) (preset : Preset)
  : list FilterStage :=
  when (use_cuda self preset && negb (default true (p_hwaccel preset)))
       Upload ++
  present (p_scale preset)
          (fun wh => Scale (fst wh) (snd wh) (use_cuda self preset)) ++
  when (truthy (p_deinterlace preset)) (Deinterlace (use_cuda self preset)) ++
  when (truthy (p_tonemap preset)) (ToneMap (use_cuda self preset)) ++
  present (p_fps preset) FrameRateConvert.

Definition cpu_tail (preset : Preset) (lut_path : option string)
  : list FilterStage :=
  requested lut_path ColorLUT ++
  requested (p_eq preset) ColorCorrect ++
  requested (p_unsharp preset) Sharpen ++
  requested (p_grain preset) Grain ++
  requested (p_letterbox preset) Letterbox ++
  requested (p_vignette preset) Vignette.

Definition pipeline (self : GPUPipeline) (preset : Preset)
    (lut_path : option string) : list FilterStage :=
  gpu_side self preset ++
  when (use_cuda self preset && needs_cpu_filters preset lut_path) Download ++
  cpu_tail preset lut_path.

(** A segment holding at most one stage, of rank [r]. *)
Definition slot (r : nat) (l : list FilterStage) : Prop :=
  l = [] \/ exists s, l = [s] /\ rank s = r.

(** Ranks strictly increase along [l] and start at [lo] or later. *)
Definition sorted_from (lo : nat) (l : list FilterStage) : Prop :=
  StronglySorted lt (map rank l) /\ Forall (fun s => lo <= rank s) l.

Definition filter_graph (self : GPUPipeline) (preset : Preset)
    (lut_path : option string) : string :=
  if truthy (pipeline self preset lut_path)
  then String.concat "," (map render (pipeline self preset lut_path))
  else EmptyString.

Definition decode_args (self : GPUPipeline) (preset : Preset) : list string :=
  if default true (p_hwaccel preset) && has_nvenc self
  then ["-hwaccel"; "cuda"; "-hwaccel_output_format"; "cuda"] else [].

Definition filter_args (self : GPUPipeline) (preset : Preset)
    (lut_path : option string) : list string :=
  if truthy (filter_graph self preset lut_path)
  then ["-vf"; filter_graph self preset lut_path] else [].

Definition video_encoder (self : GPUPipeline) (preset : Preset) : string :=
  default (if has_nvenc self then "h264_nvenc" else "libx264")
          (p_encoder preset).

Definition tune_args (preset : Preset) : list string :=
  match p_tune preset with
  | Some tune => if truthy tune then ["-tune"; tune] else []
  | None => []
  end.

Definition encoder_args (self : GPUPipeline) (preset : Preset)
  : list string :=
  if contains "nvenc" (video_encoder self preset) then
    ["-preset";
     default "p4" (NVENC_PRESETS !! default "medium" (p_speed preset));
     "-rc"; default "vbr" (p_rate_control preset);
     "-cq"; str (default (PyInt 23) (p_cq preset));
     "-b:v"; default "0" (p_bitrate preset);
     "-maxrate"; default "50M" (p_maxrate preset);
     "-bufsize"; default "100M" (p_bufsize preset)] ++
    tune_args preset ++
    ["-bf"; str (default (PyInt 3) (p_bframes preset))]
  else
    ["-preset"; default "medium" (p_cpu_preset preset);
     "-crf"; str (default (PyInt 23) (p_crf preset))].

Definition audio_args (preset : Preset) : list string :=
  if String.eqb (default "aac" (p_audio_codec preset)) "copy"
  then ["-c:a"; "copy"]
  else ["-c:a"; default "aac" (p_audio_codec preset);
        "-b:a"; default "128k" (p_audio_bitrate preset);
        "-ar"; str (default (PyInt 48000) (p_audio_sample_rate preset))].

Definition container_args (preset : Preset) : list string :=
  if default true (p_faststart preset)
  then ["-movflags"; "+faststart"] else [].

Definition command (self : GPUPipeline) (input_path output_path : string)
    (preset : Preset) (lut_path : option string) : list string :=
  [ffmpeg_path self; "-hide_banner"; "-y"] ++
  decode_args self preset ++
  ["-i"; input_path] ++
  filter_args self preset lut_path ++
  ["-c:v"; video_encoder self preset] ++
  encoder_args self preset ++
  audio_args preset ++
  container_args preset ++
  [output_path].

End shape.
Import shape.

(** ** Concrete inputs *)

Module scenarios.
Import scripted.

(** [GPUPipeline()] on a host where the probe found the given support. *)
Definition host (nvenc cuda : bool) : GPUPipeline :=
  {| ffmpeg_path := "ffmpeg"; has_nvenc := nvenc; has_cuda := cuda |}.

Definition scenario_preset : Preset :=
  dict [k_encoder "h264_nvenc"; k_scale (PyInt 1920, PyInt 1080);
        k_deinterlace true].

Definition scenario_preset_off_gpu : Preset :=
  dict [k_encoder "h264_nvenc"; k_scale (PyInt 1920, PyInt 1080);
        k_deinterlace true; k_hwaccel false].

Definition grain_only : Preset := dict [k_grain (PyInt 8)].

(** [AIDPClient()] with the defaults of an empty environment. *)
Definition client : AIDPClient :=
  {| api_url := "https://api.aidp.store";
     api_key := EmptyString; wallet := EmptyString |}.

Definition job_url (id : string) : string :=
  api_url client +:+ "/v1/jobs/" +:+ id.

(** A network on which job [job-a] has failed, job [job-c] runs without
    end, and any other job runs for two reads and is completed at the
    third, with the result file [f1], whose body arrives in one chunk; a
    request takes an eighth of a second, and the disk takes everything. *)
Definition studio : Remote := {|
  latency := 1 # 8;
  job_answers url n :=
    if String.eqb url (job_url "job-a") then
      Answers (answer (snapshot "failed" None (Some "CUDA out of memory")))
    else if String.eqb url (job_url "job-c") then
      Answers (answer (snapshot "running" None None))
    else if (n <? 2)%nat then Answers (answer (snapshot "running" None None))
    else Answers (answer (snapshot "completed" (Some "f1") None));
  download_answers url :=
    Answers (answer (Dict {[ "download_url" :=
                               PyStr "https://cdn.aidp.store/f1" ]}));
  bytes_answers url := Answers (answer tt);
  body_chunks url n := Answers (if (n <? 1)%nat then Some "chunk" else None);
  disk_open path := Answers tt;
  disk_write path n := Answers tt;
  disk_close path := Answers tt
|}.


(** The same network with a disk on which files can be made and nothing
    can be written. *)
Definition disk_full (r : Remote) : Remote := {|
  latency := latency r;
  job_answers := job_answers r;
  download_answers := download_answers r;
  bytes_answers := bytes_answers r;
  body_chunks := body_chunks r;
  disk_open := disk_open r;
  disk_write path n := Fails (Outside "OSError" "No space left on device");
  disk_close := disk_close r
|}.

(** The same network with every status read answered 200 with [doc]. *)
Definition answering (doc : json) (r : Remote) : Remote := {|
  latency := latency r;
  job_answers url n := Answers (answer doc);
  download_answers := download_answers r;
  bytes_answers := bytes_answers r;
  body_chunks := body_chunks r;
  disk_open := disk_open r;
  disk_write := disk_write r;
  disk_close := disk_close r
|}.

(** A status document without a [status]. *)
Definition no_status : json := Dict {[ "state" := PyStr "done" ]}.

Definition batch_job (id : string) : BatchJob :=
  {| job_id := id; input := id +:+ ".mp4";
     output := "out/" +:+ id +:+ "_processed.mp4" |}.

End scenarios.
Import scenarios.

(** ** What a run leaves behind *)

Module traces.
Import scripted.

(** The operations on files, in their order. *)
Fixpoint file_events (events : list event) : list event :=
  match events with
  | [] => []
  | Opened path :: rest => Opened path :: file_events rest
  | Wrote path chunk :: rest => Wrote path chunk :: file_events rest
  | Closed path :: rest => Closed path :: file_events rest
  | _ :: rest => file_events rest
  end.




(** [n] reads of a job status URL, each followed by a sleep. *)
Fixpoint read_and_sleep (url : string) (poll_interval : Z) (n : nat)
  : list event :=
  match n with
  | O => []
  | S k =>
      GotJob url :: Slept poll_interval :: read_and_sleep url poll_interval k
  end.

End traces.
Import traces.

(** ** gpu_pipeline.py: the probes *)

Module probe.

(** What the code reads of [subprocess.run(..., capture_output=True,
    text=True)]. *)
Record CompletedProcess : Type := {
  returncode : Z;
  stdout : string;
  stderr : string
}.

(** The host: the completed process of a command line, or [None] where
    [subprocess.run] raises (the binary is missing, it cannot be run).
    Both probes catch every [Exception], so which one is raised does not
    matter. *)
Definition Host : Type := list string -> option CompletedProcess.

(** [_check_gpu_support]: the values it leaves in [has_nvenc] and
    [has_cuda]. *)
Definition _check_gpu_support (run : Host) (ffmpeg_path : string)
  : bool * bool :=
  match run [ffmpeg_path; "-hide_banner"; "-encoders"] with
  | Some result =>
      let has_nvenc := contains "h264_nvenc" (stdout result) in
      match run [ffmpeg_path; "-hide_banner"; "-filters"] with
      | Some filters => (has_nvenc, contains "scale_cuda" (stdout filters))
      | None => (false, false)
      end
  | None => (false, false)
  end.

(** [GPUPipeline(ffmpeg_path)] *)
Definition __init__ (run : Host) (ffmpeg_path : string) : GPUPipeline :=
  let flags := _check_gpu_support run ffmpeg_path in
  {| ffmpeg_path := ffmpeg_path;
     has_nvenc := fst flags;
     has_cuda := snd flags |}.

(** [c.isspace()] for a character below 256. *)
Definition isspace (c : Ascii.ascii) : bool :=
  let n := Ascii.nat_of_ascii c in
  (Nat.leb 9 n && Nat.leb n 13) || (Nat.leb 28 n && Nat.leb n 32) ||
  Nat.eqb n 133 || Nat.eqb n 160.

(** [s.lstrip()] *)
Fixpoint lstrip (s : string) : string :=
  match s with
  | EmptyString => EmptyString
  | String c rest => if isspace c then lstrip rest else s
  end.

(** [s.rstrip()] *)
Fixpoint rstrip (s : string) : string :=
  match s with
  | EmptyString => EmptyString
  | String c rest =>
      match rstrip rest with
      | EmptyString => if isspace c then EmptyString else String c EmptyString
      | kept => String c kept
      end
  end.

(** [s.strip()] *)
Definition strip (s : string) : string := rstrip (lstrip s).

(** [s.split(sep)] for a non-empty [sep], scanning from the left: [skip]
    counts the characters of a separator found that are still to be
    passed, [part] holds the characters of the current part, last first. *)
Fixpoint split_from (sep : string) (skip : nat) (part : list Ascii.ascii)
    (s : string) : list string :=
  match s with
  | EmptyString => [string_of_list_ascii (rev part)]
  | String c rest =>
      match skip with
      | S k => split_from sep k part rest
      | O =>
          if String.prefix sep s
          then string_of_list_ascii (rev part) ::
               split_from sep (String.length sep - 1) [] rest
          else split_from sep 0 (c :: part) rest
      end
  end.

Definition split (sep s : string) : list string := split_from sep 0 [] s.

(** The dictionary [get_gpu_info] returns; the fallback has no [memory] and
    no [driver]. *)
Record GPUInfo : Type := {
  name : string;
  memory : option string;
  driver : option string;
  nvenc_available : bool;
  cuda_filters_available : bool
}.

Definition get_gpu_info (run : Host) (self : GPUPipeline) : GPUInfo :=
  let fallback :=
    {| name := "No NVIDIA GPU detected"; memory := None; driver := None;
       nvenc_available := false; cuda_filters_available := false |} in
  match run ["nvidia-smi";
             "--query-gpu=name,memory.total,driver_version";
             "--format=csv,noheader"] with
  | Some result =>
      if (returncode result =? 0)%Z then
        let parts := split ", " (strip (stdout result)) in
        {| name := if Nat.ltb 0 (length parts)
                   then nth 0 parts EmptyString else "Unknown";
           memory := Some (if Nat.ltb 1 (length parts)
                           then nth 1 parts EmptyString else "Unknown");
           driver := Some (if Nat.ltb 2 (length parts)
                           then nth 2 parts EmptyString else "Unknown");
           nvenc_available := has_nvenc self;
           cuda_filters_available := has_cuda self |}
      else fallback
  | None => fallback
  end.

End probe.
Import probe.

(** ** aidp_client.py: [_hash_file] *)

Module hashing.

(** The first [n] bytes of [s], and the bytes after them. *)
Fixpoint cut (n : nat) (s : string) : string * string :=
  match n, s with
  | S k, String c rest =>
      (String c (fst (cut k rest)), snd (cut k rest))
  | _, _ => (EmptyString, s)
  end.

(** [f.read(size)] on a file opened with ["rb"], of which [unread] is
    left: the bytes returned and the bytes left after them.  The size -1
    reads to the end of the file; a size below -1 is a [ValueError]. *)
Definition file_read (size : Z) (unread : string)
  : result (string * string) :=
  if (size <? -1)%Z then Raise ValueError
  else if (size <? 0)%Z then Ok (unread, EmptyString)
  else Ok (cut (Z.to_nat size) unread).

(** [while chunk := f.read(chunk_size): sha256.update(chunk)]; [fed] is
    what the hash object has been fed so far. *)
Fixpoint feed (fuel : nat) (chunk_size : Z) (fed unread : string)
  : result string :=
  match fuel with
  | O => OutOfFuel
  | S fuel' =>
      read ← file_read chunk_size unread;
      let chunk := fst read in
      if truthy chunk then
        feed fuel' chunk_size (fed +:+ chunk) (snd read)
      else Ok fed
  end.

(** [_hash_file] on a file that holds [content].  [hexdigest] is
    [hashlib.sha256], as the function from the bytes a hash object has been
    fed to its [hexdigest()]. *)
Definition _hash_file (hexdigest : string -> string) (fuel : nat)
    (content : string) (chunk_size : Z) : result string :=
  fed ← feed fuel chunk_size EmptyString content;
  Ok (hexdigest fed).

End hashing.
Import hashing.

(** ** aidp_client.py: staging a file and submitting a job *)

Module staging.

(** The JSON body of a storage stage request. *)
Record UploadRequest : Type := {
  rq_filename : string;
  rq_size : Z;
  rq_hash : string;
  rq_type : string
}.

(** The JSON document that answers it. *)
Record UploadInfo : Type := {
  ui_file_id : option string;
  ui_upload_url : option string;
  ui_storage_url : option string
}.

(** The dictionary [upload_file] returns. *)
Record Uploaded : Type := {
  up_file_id : string;
  up_storage_url : string;
  up_hash : string
}.

Record GPURequirements : Type := {
  gr_min_vram_gb : pynum;
  gr_preferred_gpu : string;
  gr_cuda_compute : string
}.

(** The JSON body of a job submission; [jc_target_node] is [None] when the
    key is not set. *)
Record JobConfig : Type := {
  jc_type : string;
  jc_input_file_id : string;
  jc_preset : Preset;
  jc_lut_file_id : option string;
  jc_priority : string;
  jc_gpu_requirements : GPURequirements;
  jc_target_node : option string
}.

(** The JSON document that answers it. *)
Record SubmitAnswer : Type := {
  sa_job_id : option string;
  sa_assigned_node : option string;
  sa_estimated_time_seconds : option pynum;
  sa_cost_estimate_usd : option pynum
}.

(** The dictionary [submit_job] returns. *)
Record Submitted : Type := {
  sb_job_id : string;
  sb_node_id : string;
  sb_estimated_time : option pynum;
  sb_cost_estimate : option pynum
}.

(** The rest of the outside that staging and submission use.  Each of
    these operations answers: for staging and submission, a file that
    cannot be opened and a connection that breaks are not part of the
    model. *)
Class Staging (W : Type) : Type := {
  (** the bytes [open(path, "rb")] gives to its reads *)
  file_bytes : string -> W -> string * W;
  (** [os.path.getsize(path)] *)
  os_path_getsize : string -> W -> Z * W;
  (** [session.post(url, json=body)] on the storage upload URL *)
  session_post_upload : string -> UploadRequest -> W -> Response UploadInfo * W;
  (** [session.put(url, data=f)] with the file at a path; [resp.status] *)
  session_put : string -> string -> W -> Z * W;
  (** [session.post(url, json=job_config)] on the job submission URL *)
  session_post_job : string -> JobConfig -> W -> Response SubmitAnswer * W
}.

(** [os.path.basename(path)], POSIX: what follows the last slash. *)
Fixpoint basename (path : string) : string :=
  match path with
  | EmptyString => EmptyString
  | String c rest =>
      if contains "/" rest then basename rest
      else if String.eqb (String c EmptyString) "/" then rest
      else path
  end.

Section Staging.
Context {W : Type} `{Staging W}.

(** [hexdigest] is [hashlib.sha256], as for [_hash_file]; [fuel] bounds the
    reads of the hashing loop. *)
Definition upload_file (hexdigest : string -> string) (fuel : nat)
    (self : AIDPClient) (file_path : string) : io W Uploaded :=
  (* Calculate file hash for integrity *)
  content ← ask (file_bytes file_path);
  file_hash ← pure (_hash_file hexdigest fuel content 65536);
  file_size ← ask (os_path_getsize file_path);
  let file_name := basename file_path in
  (* Request upload URL *)
  resp ← ask (session_post_upload
                (api_url self +:+ "/v1/storage/upload")
                {| rq_filename := file_name; rq_size := file_size;
                   rq_hash := file_hash; rq_type := "video" |});
  if negb (resp_status resp =? 200)%Z then
    raise (AIDPError ("Upload request failed: " +:+ resp_text resp))
  else
    let upload_info := resp_body resp in
    (* Upload to presigned URL *)
    url ← pure (subscript "upload_url" (ui_upload_url upload_info));
    code ← ask (session_put url file_path);
    if negb ((code =? 200)%Z || (code =? 201)%Z) then
      raise (AIDPError ("File upload failed: " +:+ str_int code))
    else
      file_id ← pure (subscript "file_id" (ui_file_id upload_info));
      storage_url ← pure (subscript "storage_url"
                                    (ui_storage_url upload_info));
      mret {| up_file_id := file_id; up_storage_url := storage_url;
              up_hash := file_hash |}.

Definition submit_job (hexdigest : string -> string) (fuel : nat)
    (self : AIDPClient) (input_file_id : string) (preset : Preset)
    (lut_path gpu_node : option string) (priority : string)
  : io W Submitted :=
  (* Upload LUT if provided *)
  lut_file_id ←
    match lut_path with
    | Some lut =>
        if truthy lut then
          lut_upload ← upload_file hexdigest fuel self lut;
          mret (Some (up_file_id lut_upload))
        else mret None
    | None => mret None
    end;
  (* Build job configuration *)
  let job_config :=
    {| jc_type := "video_processing";
       jc_input_file_id := input_file_id;
       jc_preset := preset;
       jc_lut_file_id := lut_file_id;
       jc_priority := priority;
       jc_gpu_requirements :=
         {| gr_min_vram_gb := default (PyInt 8) (p_min_vram_gb preset);
            gr_preferred_gpu := default "any" (p_preferred_gpu preset);
            gr_cuda_compute := default "7.0" (p_cuda_compute preset) |};
       jc_target_node :=
         match gpu_node with
         | Some node => if truthy node then Some node else None
         | None => None
         end |} in
  (* Submit job *)
  resp ← ask (session_post_job (api_url self +:+ "/v1/jobs/submit")
                               job_config);
  if negb (resp_status resp =? 200)%Z then
    raise (AIDPError ("Job submission failed: " +:+ resp_text resp))
  else
    let result := resp_body resp in
    job_id ← pure (subscript "job_id" (sa_job_id result));
    node_id ← pure (subscript "assigned_node" (sa_assigned_node result));
    mret {| sb_job_id := job_id; sb_node_id := node_id;
            sb_estimated_time := sa_estimated_time_seconds result;
            sb_cost_estimate := sa_cost_estimate_usd result |}.

End Staging.

End staging.
Import staging.

(** ** A scripted storage, to run staging on concrete inputs *)

Module staged.
Import scripted.

(** Files by their bytes, and the answers of the storage and of the job
    queue; each request takes a second on the clock. *)
Record Storage : Type := {
  files : string -> string;
  stage_answer : Response UploadInfo;
  put_status : Z;
  submit_answer : Response SubmitAnswer
}.

Definition storage (s : Storage) : Staging World := {|
  file_bytes path w := (files s path, w);
  os_path_getsize path w := (Z.of_nat (String.length (files s path)), w);
  session_post_upload url body w := (stage_answer s, elapse 1 w);
  session_put url path w := (put_status s, elapse 1 w);
  session_post_job url config w := (submit_answer s, elapse 1 w)
|}.

(** A storage that holds a 4-byte LUT and refuses to stage anything. *)
Definition full_disk : Storage := {|
  files path := "abcd";
  stage_answer :=
    {| resp_status := 507; resp_text := "Insufficient Storage";
       resp_body := {| ui_file_id := None; ui_upload_url := None;
                       ui_storage_url := None |} |};
  put_status := 200;
  submit_answer :=
    answer {| sa_job_id := Some "job-1"; sa_assigned_node := Some "node-7";
              sa_estimated_time_seconds := None;
              sa_cost_estimate_usd := None |}
|}.

(** A storage that stages every file as [f9]. *)
Definition roomy : Storage := {|
  files path := "abcd";
  stage_answer :=
    answer {| ui_file_id := Some "f9";
              ui_upload_url := Some "https://put.aidp.store/f9";
              ui_storage_url := Some "aidp://f9" |};
  put_status := 201;
  submit_answer :=
    answer {| sa_job_id := Some "job-1"; sa_assigned_node := Some "node-7";
              sa_estimated_time_seconds := None;
              sa_cost_estimate_usd := None |}
|}.

End staged.

(** ** Hosts, to run the probes on concrete inputs *)

Module hosts.

(** A host on which no command can be run. *)
Definition bare : Host := fun _ => None.

Definition newline : string := String (Ascii.ascii_of_nat 10) EmptyString.

(** A host on which every command exits 0 and prints the line of one
    GPU. *)
Definition workstation : Host := fun _ =>
  Some {| returncode := 0;
          stdout := "NVIDIA GeForce RTX 3090, 24576 MiB, 535.54" +:+ newline;
          stderr := EmptyString |}.

End hosts.

(** * Properties *)

(** ** The filter-chain compiler *)

Section Steps.
Context {A B : Type}.

Lemma step_when (b : bool) (stage : FilterStage) (fs : list FilterStage) :
  (if b then fs ++ [stage] else fs) = fs ++ when b stage.
Proof. destruct b; simpl; [reflexivity | symmetry; apply app_nil_r]. Qed.

Lemma step_present (key : string) (o : option A) (mk : A -> FilterStage)
    (fs : list FilterStage) (k : list FilterStage -> result B) :
  ((if has_key o then v ← subscript key o; Ok (fs ++ [mk v]) else Ok fs) ≫= k)
  = k (fs ++ present o mk).
Proof. destruct o; simpl; rewrite ?app_nil_r; reflexivity. Qed.

Lemma step_requested `{Truthy A} (key : string) (o : option A)
    (mk : A -> FilterStage) (fs : list FilterStage)
    (k : list FilterStage -> result B) :
  ((if truthy o then v ← subscript key o; Ok (fs ++ [mk v]) else Ok fs) ≫= k)
  = k (fs ++ requested o mk).
Proof.
  destruct o as [v|]; cbv [truthy truthy_option requested].
  - destruct (H v); simpl; rewrite ?app_nil_r; reflexivity.
  - simpl; rewrite app_nil_r; reflexivity.
Qed.

Lemma step_lut (lut_path : option string) (fs : list FilterStage) :
  match lut_path with
  | Some lut => if truthy lut then fs ++ [ColorLUT lut] else fs
  | None => fs
  end = fs ++ requested lut_path ColorLUT.
Proof.
  unfold requested. destruct lut_path as [lut|];
    [destruct (truthy lut)|]; rewrite ?app_nil_r; reflexivity.
Qed.

End Steps.

(** Membership in the segments of the compiled list. *)

Lemma in_when s b x : In s (when b x) <-> b = true /\ s = x.
Proof.
  destruct b; simpl; split.
  - intros [<-|[]]. auto.
  - intros [_ ->]. auto.
  - intros [].
  - intros [E _]. discriminate E.
Qed.

Lemma in_present {A} s (o : option A) mk :
  In s (present o mk) <-> exists v, o = Some v /\ s = mk v.
Proof.
  destruct o as [v|]; simpl; split.
  - intros [<-|[]]. eauto.
  - intros [v' [E ->]]. injection E as ->. auto.
  - intros [].
  - intros [v [E _]]. discriminate E.
Qed.

Lemma in_requested {A} `{Truthy A} s (o : option A) mk :
  In s (requested o mk) <-> exists v, o = Some v /\ truthy v = true /\ s = mk v.
Proof.
  unfold requested. destruct o as [v|]; [destruct (truthy v) eqn:Ev|];
    simpl; split.
  - intros [<-|[]]. eauto.
  - intros [v' [E [_ ->]]]. injection E as ->. auto.
  - intros [].
  - intros [v' [E [Et _]]]. injection E as ->. congruence.
  - intros [].
  - intros [v [E _]]. discriminate E.
Qed.

Lemma hwaccel_off (preset : Preset) :
  default true (p_hwaccel preset) = false <-> p_hwaccel preset = Some false.
Proof. destruct (p_hwaccel preset) as [[|]|]; simpl; split; congruence. Qed.

Lemma flag_on (flag : option bool) : truthy flag = true <-> flag = Some true.
Proof. destruct flag as [[|]|]; cbv; split; congruence. Qed.

Lemma truthy_nonempty_string (s : string) :
  truthy s = true -> s <> EmptyString.
Proof. destruct s; [discriminate | discriminate]. Qed.

Lemma truthy_string_nonempty (s : string) :
  s <> EmptyString -> truthy s = true.
Proof. destruct s; [congruence | reflexivity]. Qed.

Lemma truthy_nonempty_list {A} (l : list A) : truthy l = true -> l <> [].
Proof. destruct l; [discriminate | discriminate]. Qed.

Lemma truthy_list_nonempty {A} (l : list A) : l <> [] -> truthy l = true.
Proof. destruct l; [congruence | reflexivity]. Qed.

(** No subscript of [_build_filter_chain] raises: each is guarded by a test
    of the same key, and the list it builds is [pipeline]. *)
Lemma filter_stages_pipeline self preset lut_path :
  filter_stages self preset lut_path = Ok (pipeline self preset lut_path).
Proof.
  unfold filter_stages. cbv zeta.
  rewrite !step_when.
  rewrite (step_present "scale" (p_scale preset)
             (fun wh => Scale (fst wh) (snd wh) _)).
  rewrite !step_when.
  rewrite (step_present "fps" (p_fps preset) FrameRateConvert).
  rewrite !step_when.
  rewrite step_lut.
  rewrite (step_requested "eq" (p_eq preset) ColorCorrect).
  rewrite (step_requested "unsharp" (p_unsharp preset) Sharpen).
  rewrite (step_requested "grain" (p_grain preset) Grain).
  rewrite (step_requested "letterbox" (p_letterbox preset) Letterbox).
  rewrite (step_requested "vignette" (p_vignette preset) Vignette).
  unfold pipeline, gpu_side, cpu_tail, use_cuda, needs_cpu_filters.
  simpl app at 1.
  rewrite <- !app_assoc. reflexivity.
Qed.

Lemma build_filter_chain_graph self preset lut_path :
  _build_filter_chain self preset lut_path
  = Ok (filter_graph self preset lut_path).
Proof.
  unfold _build_filter_chain. rewrite filter_stages_pipeline. reflexivity.
Qed.

Lemma slot_when r b s : rank s = r -> slot r (when b s).
Proof. intros E. destruct b; [right; eauto | left; reflexivity]. Qed.

Lemma slot_present {A} r (o : option A) mk :
  (forall v, rank (mk v) = r) -> slot r (present o mk).
Proof. intros E. destruct o; [right; eauto | left; reflexivity]. Qed.

Lemma slot_requested {A} `{Truthy A} r (o : option A) mk :
  (forall v, rank (mk v) = r) -> slot r (requested o mk).
Proof.
  intros E. unfold requested. destruct o as [v|]; [|left; reflexivity].
  destruct (truthy v); [right; eauto | left; reflexivity].
Qed.

Lemma sorted_from_nil lo : sorted_from lo [].
Proof. split; constructor. Qed.

Lemma sorted_from_weaken lo l : sorted_from (S lo) l -> sorted_from lo l.
Proof.
  intros [Hs Hf]. split; [exact Hs|].
  eapply Forall_impl; [exact Hf|]. simpl. lia.
Qed.

Lemma slot_app r l1 l2 :
  slot r l1 -> sorted_from (S r) l2 -> sorted_from r (l1 ++ l2).
Proof.
  intros [->|[s [-> Hr]]] Hl2.
  - apply sorted_from_weaken, Hl2.
  - destruct Hl2 as [Hs Hf]. split; simpl.
    + constructor; [exact Hs|].
      apply List.Forall_forall. intros x Hx. apply in_map_iff in Hx.
      destruct Hx as [y [<- Hy]].
      rewrite List.Forall_forall in Hf. specialize (Hf y Hy). lia.
    + constructor; [lia|]. eapply Forall_impl; [exact Hf|]. simpl. lia.
Qed.

Lemma slot_alone r l : slot r l -> sorted_from r l.
Proof.
  intros Hl. rewrite <- (app_nil_r l).
  apply slot_app; [exact Hl | apply sorted_from_nil].
Qed.

Ltac one_slot :=
  first [apply slot_when | apply slot_present | apply slot_requested];
  reflexivity.

Lemma cpu_tail_sorted preset lut_path :
  sorted_from 6 (cpu_tail preset lut_path).
Proof.
  unfold cpu_tail.
  repeat (apply slot_app; [one_slot|]).
  apply slot_alone. one_slot.
Qed.

Lemma pipeline_sorted self preset lut_path :
  sorted_from 0 (pipeline self preset lut_path).
Proof.
  unfold pipeline, gpu_side. rewrite <- !app_assoc.
  do 6 (apply slot_app; [one_slot|]).
  apply cpu_tail_sorted.
Qed.

Lemma sorted_pairwise (l front mid back : list FilterStage) a b :
  StronglySorted lt (map rank l) ->
  l = front ++ a :: mid ++ b :: back -> rank a < rank b.
Proof.
  intros Hs ->. rewrite map_app in Hs. simpl in Hs.
  induction front as [|x front IH]; simpl in Hs.
  - apply StronglySorted_inv in Hs. destruct Hs as [_ Hf].
    rewrite List.Forall_forall in Hf. apply Hf.
    rewrite map_app. apply in_or_app. right. left. reflexivity.
  - apply StronglySorted_inv in Hs. apply IH, Hs.
Qed.

Section Segments.
Context (P : FilterStage -> Prop).

Lemma Forall_when b s : (b = true -> P s) -> Forall P (when b s).
Proof. intros Hs. destruct b; constructor; auto. Qed.

Lemma Forall_present {A} (o : option A) mk :
  (forall v, P (mk v)) -> Forall P (present o mk).
Proof. intros Hs. destruct o; constructor; auto. Qed.

Lemma Forall_requested {A} `{Truthy A} (o : option A) mk :
  (forall v, P (mk v)) -> Forall P (requested o mk).
Proof.
  intros Hs. unfold requested. destruct o as [v|]; [|constructor].
  destruct (truthy v); constructor; auto.
Qed.

End Segments.

Lemma gpu_side_before_download self preset :
  Forall (fun s => rank s < 5) (gpu_side self preset).
Proof.
  unfold gpu_side. rewrite !Forall_app.
  repeat split;
    first [apply Forall_when | apply Forall_present]; simpl; intros; lia.
Qed.

Lemma cpu_tail_cpu_only preset lut_path :
  Forall (fun s => cpu_only s = true) (cpu_tail preset lut_path).
Proof.
  unfold cpu_tail. rewrite !Forall_app.
  repeat split; apply Forall_requested; reflexivity.
Qed.

Lemma cpu_tail_nonempty preset lut_path :
  needs_cpu_filters preset lut_path = true ->
  exists first rest, cpu_tail preset lut_path = first :: rest.
Proof.
  unfold needs_cpu_filters, cpu_tail, requested.
  destruct lut_path as [lut|]; cbv [truthy truthy_option].
  - destruct (truthy_string lut); simpl; [eauto|].
    destruct (p_eq preset) as [e|]; [destruct (truthy_list e)|]; simpl;
      [eauto | |];
      (destruct (p_unsharp preset) as [u|];
       [destruct (truthy_string u)|]; simpl; [eauto | discriminate..]).
  - destruct (p_eq preset) as [e|]; [destruct (truthy_list e)|]; simpl;
      [eauto | |];
      (destruct (p_unsharp preset) as [u|];
       [destruct (truthy_string u)|]; simpl; [eauto | discriminate..]).
Qed.

(** Where the download is emitted it is right: with CUDA in use and a LUT,
    an [eq] or an [unsharp] requested, the list is the GPU side, one
    [Download], then the CPU-only stages, of which there is at least one. *)
Lemma download_before_first_cpu_stage self preset lut_path :
  use_cuda self preset = true ->
  needs_cpu_filters preset lut_path = true ->
  exists first rest,
    filter_stages self preset lut_path
    = Ok (gpu_side self preset ++ Download :: first :: rest) /\
    Forall (fun s => rank s < 5) (gpu_side self preset) /\
    Forall (fun s => cpu_only s = true) (first :: rest).
Proof.
  intros Hcuda Hcpu.
  destruct (cpu_tail_nonempty preset lut_path Hcpu) as [first [rest Htail]].
  exists first, rest. rewrite filter_stages_pipeline. unfold pipeline.
  rewrite Hcuda, Hcpu, <- Htail. simpl. repeat split.
  - apply gpu_side_before_download.
  - apply cpu_tail_cpu_only.
Qed.

(** C1, as the code has it.  For the preset
    [{encoder: "h264_nvenc", scale: (1920, 1080), deinterlace: True}] on a
    host with NVENC and CUDA filters the compiled list is exactly the CUDA
    scale followed by the CUDA deinterlace, rendered
    [scale_cuda=1920:1080,yadif_cuda=0:-1:0], with no upload: [hwaccel]
    defaults to true, so the frames are taken to be on the GPU already.
    With [hwaccel: False] added, the list is the upload, then the same two
    stages. *)
Theorem scenario_accelerated_pipeline :
  filter_stages (host true true) scenario_preset None
  = Ok [Scale (PyInt 1920) (PyInt 1080) true; Deinterlace true] /\
  _build_filter_chain (host true true) scenario_preset None
  = Ok "scale_cuda=1920:1080,yadif_cuda=0:-1:0" /\
  filter_stages (host true true) scenario_preset_off_gpu None
  = Ok [Upload; Scale (PyInt 1920) (PyInt 1080) true; Deinterlace true] /\
  _build_filter_chain (host true true) scenario_preset_off_gpu None
  = Ok "hwupload_cuda,scale_cuda=1920:1080,yadif_cuda=0:-1:0".
Proof. repeat split; vm_compute; reflexivity. Qed.

(** C1, as stated, fails: on that preset and host the compiled list is not
    [Upload, Scale(1920,1080,accelerated), Deinterlace(accelerated)]. *)
Lemma scenario_accelerated_no_upload :
  filter_stages (host true true) scenario_preset None
  <> Ok [Upload; Scale (PyInt 1920) (PyInt 1080) true; Deinterlace true].
Proof. vm_compute. discriminate. Qed.

(** C2, at the failing input.  With CUDA in use, the preset [{grain: 8}]
    compiles to the single CPU-only stage [noise=c0s=8:c0f=t+u]: no
    download precedes it, while the command decodes into GPU memory. *)
Theorem grain_only_pipeline_has_no_download :
  use_cuda (host true true) grain_only = true /\
  filter_stages (host true true) grain_only None = Ok [Grain (PyInt 8)] /\
  cpu_only (Grain (PyInt 8)) = true /\
  build_gpu_command (host true true) "in.mp4" "out.mp4" grain_only None
  = Ok ["ffmpeg"; "-hide_banner"; "-y";
        "-hwaccel"; "cuda"; "-hwaccel_output_format"; "cuda";
        "-i"; "in.mp4"; "-vf"; "noise=c0s=8:c0f=t+u";
        "-c:v"; "h264_nvenc"; "-preset"; "p4"; "-rc"; "vbr"; "-cq"; "23";
        "-b:v"; "0"; "-maxrate"; "50M"; "-bufsize"; "100M"; "-bf"; "3";
        "-c:a"; "aac"; "-b:a"; "128k"; "-ar"; "48000";
        "-movflags"; "+faststart"; "out.mp4"].
Proof. repeat split; vm_compute; reflexivity. Qed.

(** C6.  Every preset, LUT path and host compile to a list, and whenever a
    stage [a] stands before a stage [b] in it, the kind of [a] comes before
    the kind of [b] in the order Upload, Scale, Deinterlace, ToneMap,
    FrameRateConvert, Download, ColorLUT, ColorCorrect, Sharpen, Grain,
    Letterbox, Vignette.  So Scale precedes Deinterlace and ToneMap,
    Deinterlace precedes ToneMap, ToneMap precedes FrameRateConvert, the
    CPU-only stages come in their order, and no kind occurs twice. *)
Theorem pipeline_stage_order (self : GPUPipeline) (preset : Preset)
    (lut_path : option string) :
  exists stages,
    filter_stages self preset lut_path = Ok stages /\
    forall front a mid b back,
      stages = front ++ a :: mid ++ b :: back -> rank a < rank b.
Proof.
  exists (pipeline self preset lut_path). split.
  - apply filter_stages_pipeline.
  - intros front a mid b back Hsplit.
    eapply sorted_pairwise; [|exact Hsplit].
    apply pipeline_sorted.
Qed.

(** C7.  When the probe found no CUDA filters, or the preset sets
    [use_cuda] to false, the compiled list holds no accelerated stage, no
    upload and no download; and the scenario preset compiles on a host
    without NVENC and CUDA to exactly the software scale and the software
    deinterlace, [scale=1920:1080,yadif=0:-1:0]. *)
Theorem software_pipeline (self : GPUPipeline) (preset : Preset)
    (lut_path : option string) :
  has_cuda self = false \/ p_use_cuda preset = Some false ->
  (exists stages,
     filter_stages self preset lut_path = Ok stages /\
     Forall (fun s => accelerated s = false /\ s <> Upload /\ s <> Download)
            stages) /\
  filter_stages (host false false) scenario_preset None
  = Ok [Scale (PyInt 1920) (PyInt 1080) false; Deinterlace false] /\
  _build_filter_chain (host false false) scenario_preset None
  = Ok "scale=1920:1080,yadif=0:-1:0".
Proof.
  intros Hoff. split; [|split; vm_compute; reflexivity].
  assert (Hcuda : use_cuda self preset = false).
  { unfold use_cuda. destruct Hoff as [-> | ->]; [reflexivity|].
    apply andb_false_r. }
  exists (pipeline self preset lut_path). split.
  - apply filter_stages_pipeline.
  - unfold pipeline, gpu_side, cpu_tail. rewrite Hcuda. simpl.
    rewrite !Forall_app.
    repeat split;
      first [apply Forall_when | apply Forall_present
            | apply Forall_requested];
      intros; simpl; repeat split; discriminate.
Qed.

Lemma software_pipeline_witness :
  (has_cuda (host true false) = false \/
   p_use_cuda (dict [k_tonemap true; k_grain (PyInt 8)]) = Some false) /\
  exists stages,
    filter_stages (host true false) (dict [k_tonemap true; k_grain (PyInt 8)])
                  (Some "grade.cube") = Ok stages /\
    Forall (fun s => accelerated s = false /\ s <> Upload /\ s <> Download)
           stages.
Proof.
  split.
  - left. reflexivity.
  - apply (software_pipeline (host true false)
             (dict [k_tonemap true; k_grain (PyInt 8)]) (Some "grade.cube")).
    left. reflexivity.
Defined.

(** ** The command compiler *)

(** [build_gpu_command] raises nowhere and returns [command]. *)
Lemma build_gpu_command_command self input_path output_path preset lut_path :
  build_gpu_command self input_path output_path preset lut_path
  = Ok (command self input_path output_path preset lut_path).
Proof.
  unfold build_gpu_command. rewrite build_filter_chain_graph.
  unfold command, decode_args, filter_args, encoder_args, audio_args,
    container_args, tune_args, video_encoder.
  cbn [mbind result_bind].
  destruct (default true (p_hwaccel preset) && has_nvenc self);
  destruct (truthy (filter_graph self preset lut_path));
  destruct (contains "nvenc" _);
  destruct (String.eqb (default "aac" (p_audio_codec preset)) "copy");
  destruct (default true (p_faststart preset));
  try (destruct (p_tune preset) as [[|c tune]|]); reflexivity.
Qed.

Lemma render_nonempty stage : truthy (render stage) = true.
Proof. destruct stage as [| ? ? [|] | [|] | [|] | | | | | | | |]; reflexivity. Qed.

(** A list with a stage in it never joins to the empty string, so the test
    [if filters:] of [build_gpu_command] on the joined string is the test
    of the list. *)
Lemma filter_graph_nonempty self preset lut_path :
  pipeline self preset lut_path <> [] ->
  truthy (filter_graph self preset lut_path) = true.
Proof.
  unfold filter_graph. destruct (pipeline self preset lut_path) as [|s l].
  - intros Hne. contradiction Hne. reflexivity.
  - intros _. cbn [truthy truthy_list map String.concat].
    pose proof (render_nonempty s) as Hs.
    destruct (render s) as [|c r]; [discriminate Hs|].
    destruct (map render l); reflexivity.
Qed.

(** C4, as the code has it.  The encoder after [-c:v] is the one the preset
    names, when it names one, whatever the probe reports; only for a preset
    that names none is it [h264_nvenc] where the probe found NVENC and the
    software encoder [libx264] where it did not. *)
Theorem encoder_selection (self : GPUPipeline) (input_path output_path : string)
    (preset : Preset) (lut_path : option string) :
  build_gpu_command self input_path output_path preset lut_path
  = Ok (([ffmpeg_path self; "-hide_banner"; "-y"] ++
         decode_args self preset ++
         ["-i"; input_path] ++
         filter_args self preset lut_path) ++
        "-c:v" ::
        match p_encoder preset with
        | Some named => named
        | None => if has_nvenc self then "h264_nvenc" else "libx264"
        end ::
        encoder_args self preset ++ audio_args preset ++
        container_args preset ++ [output_path]).
Proof.
  rewrite build_gpu_command_command. unfold command, video_encoder.
  rewrite <- !app_assoc. destruct (p_encoder preset); reflexivity.
Qed.

(** C4, as stated, fails: on a host where the probe found neither NVENC nor
    CUDA, the catalog's [default] preset still selects [h264_nvenc] and is
    given the NVENC options. *)
Lemma named_nvenc_survives_missing_gpu :
  has_nvenc (host false false) = false /\
  contains "nvenc" "h264_nvenc" = true /\
  (preset ← get_preset "default";
   build_gpu_command (host false false) "input.mp4" "output.mp4" preset None)
  = Ok ["ffmpeg"; "-hide_banner"; "-y"; "-i"; "input.mp4";
        "-c:v"; "h264_nvenc"; "-preset"; "p4"; "-rc"; "vbr"; "-cq"; "23";
        "-b:v"; "0"; "-maxrate"; "50M"; "-bufsize"; "100M"; "-bf"; "3";
        "-c:a"; "aac"; "-b:a"; "128k"; "-ar"; "48000";
        "-movflags"; "+faststart"; "output.mp4"].
Proof. repeat split; vm_compute; reflexivity. Qed.

(** C8.  For every preset, whichever of its fields are present,
    [build_gpu_command] returns a command, and the command is the one
    written out below.  Each field that the preset does not hold is
    replaced by its default: [hwaccel] by true, the encoder by
    [h264_nvenc] where the probe found NVENC and by [libx264] where it did
    not, [speed] by [medium] (and a speed that is no key of the table by
    [p4]), [rate_control] by [vbr], [cq] by 23, [bitrate] by [0],
    [maxrate] by [50M], [bufsize] by [100M], [bframes] by 3, [cpu_preset]
    by [medium], [crf] by 23, [audio_codec] by [aac], [audio_bitrate] by
    [128k], [audio_sample_rate] by 48000 and [faststart] by true.  Each
    filter stage is in the compiled list only if the preset holds its
    field (the LUT stage, if a LUT path is given; the download, if one of
    the three it is there for is); with no stage at all the command has no
    [-vf].  On the empty preset no stage is compiled and the command is
    made of the defaults alone. *)
Theorem build_gpu_command_never_raises (self : GPUPipeline)
    (input_path output_path : string) (preset : Preset)
    (lut_path : option string) :
  (exists stages,
     filter_stages self preset lut_path = Ok stages /\
     (forall s, In s stages ->
        match s with
        | Upload => p_hwaccel preset = Some false
        | Scale w h _ => p_scale preset = Some (w, h)
        | Deinterlace _ => p_deinterlace preset = Some true
        | ToneMap _ => p_tonemap preset = Some true
        | FrameRateConvert fps => p_fps preset = Some fps
        | Download =>
            lut_path <> None \/ p_eq preset <> None \/
            p_unsharp preset <> None
        | ColorLUT lut => lut_path = Some lut
        | ColorCorrect eq => p_eq preset = Some eq
        | Sharpen unsharp => p_unsharp preset = Some unsharp
        | Grain grain => p_grain preset = Some grain
        | Letterbox aspect => p_letterbox preset = Some aspect
        | Vignette angle => p_vignette preset = Some angle
        end) /\
     build_gpu_command self input_path output_path preset lut_path
     = Ok (let encoder :=
             default (if has_nvenc self then "h264_nvenc" else "libx264")
                     (p_encoder preset) in
           [ffmpeg_path self; "-hide_banner"; "-y"] ++
           (if default true (p_hwaccel preset) && has_nvenc self
            then ["-hwaccel"; "cuda"; "-hwaccel_output_format"; "cuda"]
            else []) ++
           ["-i"; input_path] ++
           match stages with
           | [] => []
           | _ :: _ => ["-vf"; String.concat "," (map render stages)]
           end ++
           ["-c:v"; encoder] ++
           (if contains "nvenc" encoder then
              ["-preset";
               default "p4"
                 (NVENC_PRESETS !! default "medium" (p_speed preset));
               "-rc"; default "vbr" (p_rate_control preset);
               "-cq"; str (default (PyInt 23) (p_cq preset));
               "-b:v"; default "0" (p_bitrate preset);
               "-maxrate"; default "50M" (p_maxrate preset);
               "-bufsize"; default "100M" (p_bufsize preset)] ++
              match p_tune preset with
              | Some tune => if truthy tune then ["-tune"; tune] else []
              | None => []
              end ++
              ["-bf"; str (default (PyInt 3) (p_bframes preset))]
            else
              ["-preset"; default "medium" (p_cpu_preset preset);
               "-crf"; str (default (PyInt 23) (p_crf preset))]) ++
           (if String.eqb (default "aac" (p_audio_codec preset)) "copy"
            then ["-c:a"; "copy"]
            else ["-c:a"; default "aac" (p_audio_codec preset);
                  "-b:a"; default "128k" (p_audio_bitrate preset);
                  "-ar";
                  str (default (PyInt 48000) (p_audio_sample_rate preset))]) ++
           (if default true (p_faststart preset)
            then ["-movflags"; "+faststart"] else []) ++
           [output_path])) /\
  filter_stages self (dict []) None = Ok [] /\
  build_gpu_command self input_path output_path (dict []) None
  = Ok ([ffmpeg_path self; "-hide_banner"; "-y"] ++
        (if has_nvenc self
         then ["-hwaccel"; "cuda"; "-hwaccel_output_format"; "cuda"]
         else []) ++
        ["-i"; input_path; "-c:v"] ++
        (if has_nvenc self
         then ["h264_nvenc"; "-preset"; "p4"; "-rc"; "vbr"; "-cq"; "23";
               "-b:v"; "0"; "-maxrate"; "50M"; "-bufsize"; "100M";
               "-bf"; "3"]
         else ["libx264"; "-preset"; "medium"; "-crf"; "23"]) ++
        ["-c:a"; "aac"; "-b:a"; "128k"; "-ar"; "48000";
         "-movflags"; "+faststart"; output_path]).
Proof.
  split; [|split].
  - exists (pipeline self preset lut_path). split; [|split].
    + apply filter_stages_pipeline.
    + intros s. unfold pipeline, gpu_side, cpu_tail.
      rewrite !in_app_iff, !in_when, !in_present, !in_requested.
      rewrite !andb_true_iff, negb_true_iff, hwaccel_off, !flag_on.
      unfold needs_cpu_filters. rewrite !orb_true_iff.
      intros Hin. destruct s;
        decompose [or and ex] Hin; clear Hin; try discriminate;
        simplify_eq;
        repeat match goal with v : (_ * _)%type |- _ => destruct v end;
        auto.
      all: match goal with
           | Ht : truthy ?o = true |- _ =>
               destruct o eqn:Ho; [|discriminate Ht]
           end.
      all: first [ left; congruence
                 | right; left; congruence
                 | right; right; congruence ].
    + rewrite build_gpu_command_command.
      unfold command, decode_args, filter_args, video_encoder, encoder_args,
        tune_args, audio_args, container_args. cbv zeta.
      destruct (pipeline self preset lut_path) as [|s l] eqn:Hp.
      * unfold filter_graph. rewrite Hp. reflexivity.
      * rewrite filter_graph_nonempty by (rewrite Hp; discriminate).
        unfold filter_graph. rewrite Hp. reflexivity.
  - destruct self as [path nvenc [|]]; reflexivity.
  - destruct self as [path [|] [|]]; reflexivity.
Qed.

(** C10.  When the compiled list is empty, the joined filter string is
    empty and the command goes from the input path straight to [-c:v]: it
    has no [-vf] and no argument for it. *)
Theorem empty_chain_no_filter_argument (self : GPUPipeline)
    (input_path output_path : string) (preset : Preset)
    (lut_path : option string) :
  filter_stages self preset lut_path = Ok [] ->
  _build_filter_chain self preset lut_path = Ok EmptyString /\
  build_gpu_command self input_path output_path preset lut_path
  = Ok ([ffmpeg_path self; "-hide_banner"; "-y"] ++
        decode_args self preset ++
        ["-i"; input_path; "-c:v"; video_encoder self preset] ++
        encoder_args self preset ++ audio_args preset ++
        container_args preset ++ [output_path]).
Proof.
  intros Hempty. unfold _build_filter_chain. rewrite Hempty. split.
  - reflexivity.
  - rewrite build_gpu_command_command. unfold command, filter_args, filter_graph.
    rewrite filter_stages_pipeline in Hempty. injection Hempty as ->.
    reflexivity.
Qed.

Lemma empty_chain_no_filter_argument_witness :
  filter_stages (host false false) (dict [k_encoder "libx264"]) None = Ok [] /\
  build_gpu_command (host false false) "input.mp4" "output.mp4"
                    (dict [k_encoder "libx264"]) None
  = Ok ["ffmpeg"; "-hide_banner"; "-y"; "-i"; "input.mp4";
        "-c:v"; "libx264"; "-preset"; "medium"; "-crf"; "23";
        "-c:a"; "aac"; "-b:a"; "128k"; "-ar"; "48000";
        "-movflags"; "+faststart"; "output.mp4"].
Proof.
  split.
  - reflexivity.
  - apply (empty_chain_no_filter_argument (host false false)
             "input.mp4" "output.mp4" (dict [k_encoder "libx264"]) None).
    reflexivity.
Defined.

(** Conversely a list with a stage in it always yields [-vf] and a
    non-empty filter string. *)
Lemma nonempty_chain_filter_argument self preset lut_path s l :
  filter_stages self preset lut_path = Ok (s :: l) ->
  filter_args self preset lut_path
  = ["-vf"; String.concat "," (map render (s :: l))] /\
  truthy (String.concat "," (map render (s :: l))) = true.
Proof.
  rewrite filter_stages_pipeline. intros Hs. injection Hs as Hs.
  pose proof (filter_graph_nonempty self preset lut_path) as Hne.
  unfold filter_args. rewrite Hne by (rewrite Hs; discriminate).
  unfold filter_graph in *. rewrite Hs in *. split; [reflexivity|].
  apply Hne. discriminate.
Qed.

(** ** The preset catalog *)

(** C9.  For every name that is not a key of the catalog, [get_preset]
    returns the catalog's entry for [default], the very value it returns
    for the name [default]. *)
Theorem get_preset_fallback (name : string) :
  PRESETS !! name = None ->
  exists fallback,
    PRESETS !! "default" = Some fallback /\
    get_preset name = Ok fallback /\
    get_preset name = get_preset "default".
Proof.
  intros Hmissing.
  assert (Hdefault : exists fallback, PRESETS !! "default" = Some fallback)
    by (eexists; vm_compute; reflexivity).
  destruct Hdefault as [fallback Hdefault]. exists fallback.
  unfold get_preset. rewrite Hmissing, Hdefault. repeat split.
Qed.

Lemma get_preset_fallback_witness :
  PRESETS !! "nonexistent" = None /\
  exists fallback,
    PRESETS !! "default" = Some fallback /\
    get_preset "nonexistent" = Ok fallback /\
    get_preset "nonexistent" = get_preset "default".
Proof.
  split.
  - vm_compute. reflexivity.
  - apply (get_preset_fallback "nonexistent"). vm_compute. reflexivity.
Defined.

(** ** The difference of two clock readings *)

Section Floats.
Local Open Scope Q_scope.

Lemma ilog2_floor (x : Q) : 0 < x -> 2 ^ ilog2 x <= x.
Proof.
  intros Hx. unfold ilog2.
  destruct (Qle_bool _ x) eqn:Htest; [apply Qle_bool_iff, Htest|].
  destruct x as [p q]. unfold Qlt in Hx. simpl in Hx. cbn [Qnum Qden].
  assert (Hp : (0 < p)%Z) by lia.
  pose proof (Z.log2_spec p Hp) as [Hlo _].
  pose proof (Z.log2_spec (Zpos q) ltac:(lia)) as [_ Hhi].
  pose proof (Z.log2_nonneg p) as Hlp.
  pose proof (Z.log2_nonneg (Zpos q)) as Hlq.
  replace (Z.log2 p - Z.log2 (Z.pos q) - 1)%Z
    with (Z.log2 p - Z.succ (Z.log2 (Z.pos q)))%Z by lia.
  rewrite Qpower_minus by discriminate.
  rewrite <- !(Zpower_Qpower 2) by lia.
  set (a := (2 ^ Z.log2 p)%Z) in *.
  set (b := (2 ^ Z.succ (Z.log2 (Z.pos q)))%Z) in *.
  assert (Hb : (0 < b)%Z) by lia.
  assert (Ha : (0 < a)%Z) by (subst a; apply Z.pow_pos_nonneg; lia).
  apply Qle_shift_div_r.
  - change 0 with (inject_Z 0). rewrite <- Zlt_Qlt. exact Hb.
  - unfold Qle, Qmult, inject_Z. simpl. nia.
Qed.

Lemma round_half_even_floor (y : Q) : (Qfloor y <= round_half_even y)%Z.
Proof.
  unfold round_half_even.
  destruct (Qcompare _ _); [destruct (Z.even _)|..]; lia.
Qed.

(** Rounding to 53 bits takes no positive number to zero or below. *)
Lemma round53_positive (x : Q) : 0 < x -> 0 < round53 x.
Proof.
  intros Hx. unfold round53.
  rewrite (proj1 (Qgt_alt x 0) Hx).
  pose proof (ilog2_floor x Hx) as Hlow.
  assert (Hulp : 0 < 2 ^ (ilog2 x - 52)) by (apply Qpower_0_lt; reflexivity).
  assert (Hone : 1 <= x / 2 ^ (ilog2 x - 52)).
  { apply Qle_shift_div_l; [exact Hulp|]. rewrite Qmult_1_l.
    apply Qle_trans with (2 ^ ilog2 x); [|exact Hlow].
    apply Qpower_le_compat_l; [lia | discriminate]. }
  apply Qmult_lt_0_compat; [|exact Hulp].
  change 0 with (inject_Z 0). rewrite <- Zlt_Qlt.
  pose proof (round_half_even_floor (x / 2 ^ (ilog2 x - 52))) as Hfloor.
  pose proof (Qfloor_resp_le _ _ Hone) as Hmono.
  change (Qfloor 1) with 1%Z in Hmono. lia.
Qed.

Lemma Qopp_positive (x : Q) : x < 0 -> 0 < - x.
Proof. intros Hx. lra. Qed.

Lemma round53_sign (x : Q) : 0 < round53 x <-> 0 < x.
Proof.
  split; [|apply round53_positive].
  intros Hr. destruct (Qcompare x 0) eqn:Hcmp.
  - unfold round53 in Hr. rewrite Hcmp in Hr. discriminate Hr.
  - exfalso. apply Qlt_alt in Hcmp.
    pose proof (round53_positive (- x) (Qopp_positive x Hcmp)) as Hneg.
    unfold round53 in Hr, Hneg.
    rewrite (proj1 (Qlt_alt x 0) Hcmp) in Hr.
    rewrite (proj1 (Qgt_alt (- x) 0) (Qopp_positive x Hcmp)) in Hneg.
    cbv zeta in *. lra.
  - apply Qgt_alt, Hcmp.
Qed.

(** The test [a - b > 0] on doubles is the test [a > b]: the rounded
    difference has the sign of the exact one. *)
Lemma float_gt_zero (a b : Q) :
  float_gt_int (float_sub a b) 0 = true <-> b < a.
Proof.
  unfold float_sub. cbv zeta.
  pose proof (round53_sign (a - b)) as Hsign.
  assert (Hbig : 0 < 2 ^ 1024) by (apply Qpower_0_lt; reflexivity).
  destruct (Qle_bool (2 ^ 1024) _) eqn:Hhi.
  { apply Qle_bool_iff in Hhi. cbn [float_gt_int negb]. split; [|reflexivity].
    intros _. assert (H : 0 < a - b) by (apply Hsign; lra). lra. }
  destruct (Qle_bool _ (- 2 ^ 1024)) eqn:Hlo.
  { apply Qle_bool_iff in Hlo. cbn [float_gt_int negb].
    split; [discriminate|].
    intros Hab. assert (H : 0 < round53 (a - b)) by (apply Hsign; lra). lra. }
  cbn [float_gt_int].
  rewrite negb_true_iff, <- not_true_iff_false, Qle_bool_iff.
  change (inject_Z 0) with 0. split.
  - intros Hr. assert (H : 0 < a - b) by (apply Hsign; lra). lra.
  - intros Hab. assert (H : 0 < round53 (a - b)) by (apply Hsign; lra). lra.
Qed.

Lemma float_not_gt_zero (a b : Q) :
  float_gt_int (float_sub a b) 0 = false <-> a <= b.
Proof.
  rewrite <- not_true_iff_false, float_gt_zero.
  split; [apply Qnot_lt_le | apply Qle_not_lt].
Qed.

End Floats.

(** The differences of Python: [1.1 - 0.1] is 1 and [0.3 - 0.1] is
    0.19999999999999998, one unit in the last place below a fifth. *)
Example float_sub_rounds :
  (let double x := Qred (round53 x) in
   (double (1 # 10), float_gt_int (float_sub (double (11 # 10))
                                             (double (1 # 10))) 1,
    Qred (round53 (double (3 # 10) - double (1 # 10)))))
  = ((3602879701896397 # 36028797018963968)%Q, false,
     (7205759403792793 # 36028797018963968)%Q).
Proof. vm_compute. reflexivity. Qed.

(** ** The wait loop *)

Lemma eq_str_spec (v : value) (s : string) : eq_str v s = true <-> v = PyStr s.
Proof.
  destruct v; simpl; try (split; [discriminate | congruence]).
  rewrite String.eqb_eq. split; congruence.
Qed.

Lemma eq_str_neq (v : value) (s : string) :
  eq_str v s = false <-> v <> PyStr s.
Proof. rewrite <- eq_str_spec. symmetry. apply not_true_iff_false. Qed.


Section WaitFacts.
Context {W : Type} `{Network W}.

Lemma get_job_status_unfold (self : AIDPClient) (job_id : string) (w : W) :
  get_job_status self job_id w
  = match session_get_job (api_url self +:+ "/v1/jobs/" +:+ job_id) w with
    | (Ok resp, w1) =>
        if negb (resp_status resp =? 200)%Z
        then (Raise (AIDPError ("Status check failed: " +:+ resp_text resp)),
              w1)
        else (Ok (resp_body resp), w1)
    | (Raise e, w1) => (Raise e, w1)
    | (OutOfFuel, w1) => (OutOfFuel, w1)
    end.
Proof.
  unfold get_job_status, mbind, io_bind.
  destruct (session_get_job _ w) as [[resp| |] w1]; try reflexivity.
  destruct (negb _); reflexivity.
Qed.

(** One iteration of the loop, outcome by outcome. *)
Lemma wait_loop_unfold fuel self job_id timeout poll_interval
    (cb : option (json -> io W json)) start_time w :
  wait_loop (S fuel) self job_id timeout poll_interval cb start_time w
  = match get_job_status self job_id w with
    | (Ok st, w1) =>
        match told cb st w1 with
        | (Ok st', w2) =>
            match getitem st' "status" with
            | Ok state =>
                if eq_str state "completed" then (Ok st', w2)
                else if eq_str state "failed" then
                  match get st' "error" (PyStr "Unknown error") with
                  | Ok detail =>
                      (Raise (AIDPError ("Job failed: " +:+ format detail)),
                       w2)
                  | Raise e => (Raise e, w2)
                  | OutOfFuel => (OutOfFuel, w2)
                  end
                else if float_gt_int
                          (float_sub (fst (time_time w2)) start_time)
                          timeout then
                  (Raise (AIDPError ("Job timed out after " +:+
                                     str_int timeout +:+ " seconds")),
                   snd (time_time w2))
                else
                  wait_loop fuel self job_id timeout poll_interval cb
                            start_time
                            (asyncio_sleep poll_interval (snd (time_time w2)))
            | Raise e => (Raise e, w2)
            | OutOfFuel => (OutOfFuel, w2)
            end
        | (Raise e, w2) => (Raise e, w2)
        | (OutOfFuel, w2) => (OutOfFuel, w2)
        end
    | (Raise e, w1) => (Raise e, w1)
    | (OutOfFuel, w1) => (OutOfFuel, w1)
    end.
Proof.
  cbn [wait_loop]. unfold mbind, io_bind at 1.
  destruct (get_job_status self job_id w) as [[st| |] w1]; try reflexivity.
  unfold io_bind at 1, told.
  destruct (match cb with Some callback => callback st | None => mret st end w1)
    as [[st'| |] w2]; try reflexivity.
  unfold io_bind at 1, pure.
  destruct (getitem st' "status") as [state| |]; try reflexivity.
  destruct (eq_str state "completed"); [reflexivity|].
  unfold io_bind at 1. destruct (eq_str state "failed").
  - unfold io_bind at 1.
    destruct (get st' "error" (PyStr "Unknown error")); reflexivity.
  - unfold io_bind at 1, ask. cbn [fst snd].
    destruct (float_gt_int _ _); reflexivity.
Qed.

Lemma wait_for_job_unfold fuel self job_id timeout poll_interval
    (cb : option (json -> io W json)) w :
  wait_for_job fuel self job_id timeout poll_interval cb w
  = wait_loop fuel self job_id timeout poll_interval cb (fst (time_time w))
              (snd (time_time w)).
Proof. reflexivity. Qed.


(** One iteration that goes on with [timeout=0]: the read is not terminal
    and the clock is not past [start_time]; the loop sleeps and reads
    again. *)
Lemma wait_loop_continue fuel self job_id poll_interval
    (cb : option (json -> io W json)) start_time w st w1 st' w2 t1 w3 :
  get_job_status self job_id w = (Ok st, w1) ->
  told cb st w1 = (Ok st', w2) ->
  pending st' ->
  time_time w2 = (t1, w3) ->
  (t1 <= start_time)%Q ->
  wait_loop (S fuel) self job_id 0 poll_interval cb start_time w
  = wait_loop fuel self job_id 0 poll_interval cb start_time
              (asyncio_sleep poll_interval w3).
Proof.
  intros Hpoll Hcb [state [Hstate [Hc Hf]]] Hnow Hearly.
  apply eq_str_neq in Hc, Hf. apply float_not_gt_zero in Hearly.
  rewrite wait_loop_unfold, Hpoll, Hcb, Hstate, Hc, Hf, Hnow.
  cbn [fst snd]. rewrite Hearly. reflexivity.
Qed.



(** While the clock stands at or before the reading the call took first, a
    wait with [timeout=0] does not end: [n] reads that are not terminal
    take all the fuel of [n] iterations. *)
Lemma wait_loop_still_clock (n : nat) (self : AIDPClient) (job_id : string)
    (poll_interval : Z) (cb : option (json -> io W json)) (t0 : Q) :
  (forall w, exists st w1 st' w2,
      get_job_status self job_id w = (Ok st, w1) /\
      told cb st w1 = (Ok st', w2) /\ pending st' /\
      (fst (time_time w2) <= t0)%Q) ->
  forall w, fst (wait_loop n self job_id 0 poll_interval cb t0 w) = OutOfFuel.
Proof.
  intros Hstill. induction n as [|n IH]; intros w; [reflexivity|].
  destruct (Hstill w) as [st [w1 [st' [w2 [Hpoll [Hcb [Hpending Hclock]]]]]]].
  rewrite (wait_loop_continue n self job_id poll_interval cb t0 w st w1 st' w2
             (fst (time_time w2)) (snd (time_time w2)));
    [apply IH | assumption.. | | assumption].
  destruct (time_time w2); reflexivity.
Qed.

End WaitFacts.


(** Two reads of [running], then [completed] with the file [f1]: the call
    returns that third read after exactly three reads. *)
Example wait_for_job_three_reads :
  fst (wait_for_job (H := scripted.network studio) 3 client "job-b" 3600 2 None
                    scripted.start)
  = Ok (scripted.snapshot "completed" (Some "f1") None) /\
  scripted.log (snd (wait_for_job (H := scripted.network studio) 3 client "job-b"
                                  3600 2 None scripted.start))
  = [scripted.GotJob (job_url "job-b"); scripted.Slept 2;
     scripted.GotJob (job_url "job-b"); scripted.Slept 2;
     scripted.GotJob (job_url "job-b")].
Proof. split; vm_compute; reflexivity. Qed.

(** A status document without [status] ends the wait with the [KeyError]
    of the subscript, one that is no dict, here a list, with a
    [TypeError], and a failed job whose [error] is [null] with the detail
    [None]. *)
Example wait_for_job_on_odd_documents :
  fst (wait_for_job (H := scripted.network (answering no_status studio)) 3
                    client "job-b" 3600 2 None scripted.start)
  = Raise (KeyError "status") /\
  fst (wait_for_job
         (H := scripted.network (answering (NotADict (PyNested "[]")) studio))
         3 client "job-b" 3600 2 None scripted.start)
  = Raise TypeError /\
  fst (wait_for_job
         (H := scripted.network
                 (answering (Dict {[ "status" := PyStr "failed";
                                     "error" := PyNone ]}) studio))
         3 client "job-b" 3600 2 None scripted.start)
  = Raise (AIDPError "Job failed: None").
Proof. repeat split; vm_compute; reflexivity. Qed.

(** The detail of a failed job is whatever the document holds at [error],
    formatted: the text of a string, [None] for a JSON [null], and
    [Unknown error] only when the key is absent. *)
Example failed_job_detail :
  (detail ← get (Dict {[ "error" := PyStr "CUDA out of memory" ]}) "error"
                (PyStr "Unknown error");
   Ok ("Job failed: " +:+ format detail))
  = Ok "Job failed: CUDA out of memory" /\
  (detail ← get (Dict {[ "error" := PyNone ]}) "error" (PyStr "Unknown error");
   Ok ("Job failed: " +:+ format detail))
  = Ok "Job failed: None" /\
  (detail ← get (Dict ∅) "error" (PyStr "Unknown error");
   Ok ("Job failed: " +:+ format detail))
  = Ok "Job failed: Unknown error".
Proof. repeat split; vm_compute; reflexivity. Qed.

(** ** The wait loop of a batch run *)

Section BatchFacts.
Context {W : Type} `{Network W}.

Lemma wait_one_raise fuel client total completed job w e w' :
  wait_for_job fuel client (job_id job) 3600 2 None w = (Raise e, w') ->
  wait_one fuel client total completed job w = (Raise e, w').
Proof.
  intros Hwait. unfold wait_one, mbind, io_bind at 1. rewrite Hwait.
  reflexivity.
Qed.

Lemma wait_all_app fuel client total completed pre rest w :
  wait_all fuel client total completed (pre ++ rest) w
  = match wait_all fuel client total completed pre w with
    | (Ok done, w1) => wait_all fuel client total done rest w1
    | (Raise e, w1) => (Raise e, w1)
    | (OutOfFuel, w1) => (OutOfFuel, w1)
    end.
Proof.
  revert completed w. induction pre as [|job pre IH]; intros completed w.
  - reflexivity.
  - cbn [app wait_all]. unfold mbind, io_bind.
    destruct (wait_one fuel client total completed job w) as [[done| |] w1];
      [apply IH | reflexivity..].
Qed.

(** C3, as the code has it.  The batch run awaits its jobs one after the
    other, in the order of submission.  When the jobs [pre] have been
    awaited, downloaded and reported, and the wait for the next job raises
    (the job has failed, the wait has timed out, a status read was
    refused), the batch run raises that exception and ends in the state the
    raising wait left: the jobs [post] behind it are not awaited, not
    downloaded and not reported. *)
Theorem batch_stops_at_first_raise (fuel : nat) (client : AIDPClient)
    (output_dir : string) (pre post : list BatchJob) (job : BatchJob)
    (done : Z) (e : exn) (w w1 w2 : W) :
  wait_all fuel client (length (pre ++ job :: post)) 0 pre w = (Ok done, w1) ->
  wait_for_job fuel client (job_id job) 3600 2 None w1 = (Raise e, w2) ->
  batch_process_wait fuel client output_dir (pre ++ job :: post) w
  = (Raise e, w2).
Proof.
  intros Hpre Hjob. unfold batch_process_wait, mbind, io_bind at 1.
  rewrite wait_all_app, Hpre. cbn [wait_all]. unfold mbind, io_bind at 1.
  rewrite (wait_one_raise _ _ _ _ _ _ _ _ Hjob). reflexivity.
Qed.

End BatchFacts.

Lemma batch_stops_at_first_raise_witness :
  batch_process_wait (H := scripted.network studio) 3 client "out"
    ([batch_job "job-b"] ++ batch_job "job-a" :: [batch_job "job-d"])
    scripted.start
  = (Raise (AIDPError "Job failed: CUDA out of memory"),
     snd (wait_for_job (H := scripted.network studio) 3 client "job-a"
            3600 2 None
            (snd (wait_all (H := scripted.network studio) 3 client 3 0
                    [batch_job "job-b"] scripted.start)))).
Proof.
  apply (batch_stops_at_first_raise (H := scripted.network studio)
           3 client "out" [batch_job "job-b"] [batch_job "job-d"]
           (batch_job "job-a") 1
           (AIDPError "Job failed: CUDA out of memory")
           scripted.start
           (snd (wait_all (H := scripted.network studio) 3 client 3 0
                   [batch_job "job-b"] scripted.start))).
  - vm_compute. reflexivity.
  - vm_compute. reflexivity.
Defined.

(** C3, as stated, fails.  Of the two submitted jobs [job-a] and [job-b],
    the first has failed and the second would be completed at its third
    read.  The batch run raises the failure of [job-a] after the one read
    that reported it: [job-b] is never read, nothing is downloaded and
    nothing is reported. *)
Lemma batch_abandons_jobs_after_failure :
  fst (batch_process_wait (H := scripted.network studio) 3 client "out"
         [batch_job "job-a"; batch_job "job-b"] scripted.start)
  = Raise (AIDPError "Job failed: CUDA out of memory") /\
  scripted.log
    (snd (batch_process_wait (H := scripted.network studio) 3 client "out"
            [batch_job "job-a"; batch_job "job-b"] scripted.start))
  = [scripted.GotJob (job_url "job-a")] /\
  fst (wait_one (H := scripted.network studio) 3 client 2 0
         (batch_job "job-b") scripted.start)
  = Ok 1%Z.
Proof. repeat split; vm_compute; reflexivity. Qed.

(** * Further properties *)

(** ** Which stages are compiled *)

Ltac find_disjunct :=
  lazymatch goal with
  | |- _ \/ _ => first [left; find_disjunct | right; find_disjunct]
  | |- _ => solve [eauto 6]
  end.

(** X1.  Which stages are compiled.  [scale] and [fps] are compiled
    whenever the key is present, whatever its value; [deinterlace] and
    [tonemap] only when set to true; the LUT, [eq], [unsharp], [grain],
    [letterbox] and [vignette] only when present and true in Python's sense
    (a non-empty string or dictionary, a non-zero number); the upload only
    with CUDA in use and [hwaccel] set to false; the download only with
    CUDA in use and a LUT, an [eq] or an [unsharp].  Nothing else is ever
    compiled. *)
Theorem compiled_stages (self : GPUPipeline) (preset : Preset)
    (lut_path : option string) :
  exists stages,
    filter_stages self preset lut_path = Ok stages /\
    forall s, In s stages <->
      match s with
      | Upload =>
          use_cuda self preset = true /\ p_hwaccel preset = Some false
      | Scale w h a =>
          p_scale preset = Some (w, h) /\ a = use_cuda self preset
      | Deinterlace a =>
          p_deinterlace preset = Some true /\ a = use_cuda self preset
      | ToneMap a =>
          p_tonemap preset = Some true /\ a = use_cuda self preset
      | FrameRateConvert fps => p_fps preset = Some fps
      | Download =>
          use_cuda self preset = true /\
          needs_cpu_filters preset lut_path = true
      | ColorLUT lut => lut_path = Some lut /\ lut <> EmptyString
      | ColorCorrect eq => p_eq preset = Some eq /\ eq <> []
      | Sharpen unsharp =>
          p_unsharp preset = Some unsharp /\ unsharp <> EmptyString
      | Grain grain => p_grain preset = Some grain /\ truthy grain = true
      | Letterbox aspect =>
          p_letterbox preset = Some aspect /\ truthy aspect = true
      | Vignette angle =>
          p_vignette preset = Some angle /\ truthy angle = true
      end.
Proof.
  exists (pipeline self preset lut_path). split.
  - apply filter_stages_pipeline.
  - intros s. unfold pipeline, gpu_side, cpu_tail.
    rewrite !in_app_iff, !in_when, !in_present, !in_requested.
    rewrite !andb_true_iff, negb_true_iff, hwaccel_off, !flag_on.
    destruct s; split.
    all: try (intros Hin; decompose [or and ex] Hin; clear Hin;
              try discriminate; simplify_eq;
              repeat match goal with v : (_ * _)%type |- _ => destruct v end;
              auto using truthy_nonempty_string, truthy_nonempty_list; fail).
    all: intros Hs;
      try match type of Hs with
          | _ /\ _ =>
              destruct Hs as [Hfield Hrest];
              try (apply truthy_string_nonempty in Hrest);
              try (apply truthy_list_nonempty in Hrest)
          end.
    all: subst; find_disjunct.
Qed.

Lemma pipeline_without_cuda self preset lut_path :
  use_cuda self preset = false ->
  Forall (fun s => accelerated s = false /\ s <> Upload /\ s <> Download)
         (pipeline self preset lut_path).
Proof.
  intros Hcuda. unfold pipeline, gpu_side, cpu_tail. rewrite Hcuda. simpl.
  rewrite !Forall_app.
  repeat split;
    first [apply Forall_when | apply Forall_present | apply Forall_requested];
    intros; simpl; repeat split; discriminate.
Qed.

(** ** More on the command *)

(** X2.  When the compiled list holds the upload, the upload is its first
    stage and the command has no [-hwaccel] flags: [-i] follows [-y]
    directly, and the filter argument is present. *)
Theorem upload_excludes_gpu_decode (self : GPUPipeline)
    (input_path output_path : string) (preset : Preset)
    (lut_path : option string) (stages : list FilterStage) :
  filter_stages self preset lut_path = Ok stages ->
  In Upload stages ->
  (exists rest, stages = Upload :: rest) /\
  build_gpu_command self input_path output_path preset lut_path
  = Ok ([ffmpeg_path self; "-hide_banner"; "-y"; "-i"; input_path;
         "-vf"; String.concat "," (map render stages);
         "-c:v"; video_encoder self preset] ++
        encoder_args self preset ++ audio_args preset ++
        container_args preset ++ [output_path]).
Proof.
  rewrite filter_stages_pipeline. intros Hs Hin. injection Hs as <-.
  assert (Hup : use_cuda self preset && negb (default true (p_hwaccel preset))
                = true).
  { pose proof (pipeline_sorted self preset lut_path) as [_ Hranks].
    unfold pipeline, gpu_side in Hin. rewrite <- !app_assoc in Hin.
    apply in_app_iff in Hin. destruct Hin as [Hin|Hin].
    - apply in_when in Hin. apply Hin.
    - exfalso. revert Hin. rewrite !in_app_iff, !in_when, !in_present.
      unfold cpu_tail. rewrite !in_app_iff, !in_requested.
      intros Hin. decompose [or and ex] Hin; discriminate. }
  assert (Hfirst : exists rest, pipeline self preset lut_path = Upload :: rest).
  { unfold pipeline, gpu_side. rewrite Hup. simpl. eauto. }
  split; [exact Hfirst|].
  destruct Hfirst as [rest Hrest].
  rewrite build_gpu_command_command. unfold command, decode_args, filter_args.
  rewrite filter_graph_nonempty by (rewrite Hrest; discriminate).
  apply andb_true_iff in Hup. destruct Hup as [_ Hoff].
  apply negb_true_iff in Hoff. rewrite Hoff. simpl.
  unfold filter_graph. rewrite Hrest. reflexivity.
Qed.

Lemma upload_excludes_gpu_decode_witness :
  In Upload [Upload; Scale (PyInt 1920) (PyInt 1080) true; Deinterlace true] /\
  build_gpu_command (host true true) "in.mp4" "out.mp4"
                    scenario_preset_off_gpu None
  = Ok (["ffmpeg"; "-hide_banner"; "-y"; "-i"; "in.mp4"; "-vf";
         "hwupload_cuda,scale_cuda=1920:1080,yadif_cuda=0:-1:0";
         "-c:v"; "h264_nvenc"] ++
        encoder_args (host true true) scenario_preset_off_gpu ++
        audio_args scenario_preset_off_gpu ++
        container_args scenario_preset_off_gpu ++ ["out.mp4"]).
Proof.
  split.
  - left. reflexivity.
  - apply (upload_excludes_gpu_decode (host true true) "in.mp4" "out.mp4"
             scenario_preset_off_gpu None
             [Upload; Scale (PyInt 1920) (PyInt 1080) true; Deinterlace true]).
    + reflexivity.
    + left. reflexivity.
Defined.

(** X21.  The decode flags follow the NVENC probe and the upload follows
    the CUDA filter probe and [hwaccel].  On a host with CUDA filters and
    no NVENC, a preset that does not set [hwaccel] to false gets neither:
    the command has no [-hwaccel] flags, the list has no upload, and a
    requested scale is still compiled to the CUDA filter. *)
Theorem cuda_filters_on_software_frames (self : GPUPipeline)
    (input_path output_path : string) (preset : Preset)
    (lut_path : option string) :
  has_nvenc self = false ->
  use_cuda self preset = true ->
  p_hwaccel preset <> Some false ->
  exists stages,
    filter_stages self preset lut_path = Ok stages /\
    ~ In Upload stages /\
    (forall w h, p_scale preset = Some (w, h) -> In (Scale w h true) stages) /\
    build_gpu_command self input_path output_path preset lut_path
    = Ok ([ffmpeg_path self; "-hide_banner"; "-y"; "-i"; input_path] ++
          filter_args self preset lut_path ++
          ["-c:v"; video_encoder self preset] ++
          encoder_args self preset ++ audio_args preset ++
          container_args preset ++ [output_path]).
Proof.
  intros Hnvenc Hcuda Hhw.
  assert (Hon : default true (p_hwaccel preset) = true).
  { destruct (p_hwaccel preset) as [[|]|]; try reflexivity.
    contradiction Hhw. reflexivity. }
  exists (pipeline self preset lut_path).
  split; [apply filter_stages_pipeline|]. split; [|split].
  - unfold pipeline, gpu_side, cpu_tail. rewrite Hon, Hcuda. simpl.
    rewrite !in_app_iff, !in_when, !in_present, !in_requested.
    intros Hin. decompose [or and ex] Hin; discriminate.
  - intros w h Hscale. unfold pipeline, gpu_side.
    rewrite Hscale, Hcuda. rewrite !in_app_iff. left. right. left.
    left. reflexivity.
  - rewrite build_gpu_command_command. unfold command, decode_args.
    rewrite Hnvenc, andb_false_r. reflexivity.
Qed.

Lemma cuda_filters_on_software_frames_witness :
  exists stages,
    filter_stages (host false true) scenario_preset None = Ok stages /\
    ~ In Upload stages /\
    (forall w h, p_scale scenario_preset = Some (w, h) ->
                 In (Scale w h true) stages) /\
    build_gpu_command (host false true) "in.mp4" "out.mp4" scenario_preset None
    = Ok (["ffmpeg"; "-hide_banner"; "-y"; "-i"; "in.mp4"] ++
          filter_args (host false true) scenario_preset None ++
          ["-c:v"; video_encoder (host false true) scenario_preset] ++
          encoder_args (host false true) scenario_preset ++
          audio_args scenario_preset ++
          container_args scenario_preset ++ ["out.mp4"]).
Proof.
  apply (cuda_filters_on_software_frames (host false true) "in.mp4" "out.mp4"
           scenario_preset None).
  - reflexivity.
  - reflexivity.
  - discriminate.
Defined.

(** X3.  A preset with [audio_codec: "copy"] yields [-c:a copy] and no
    [-b:a] and no [-ar]: the audio arguments are followed at once by the
    container flag and the output path, whatever [audio_bitrate] and
    [audio_sample_rate] say. *)
Theorem audio_copy_passes_through (self : GPUPipeline)
    (input_path output_path : string) (preset : Preset)
    (lut_path : option string) :
  p_audio_codec preset = Some "copy" ->
  build_gpu_command self input_path output_path preset lut_path
  = Ok (([ffmpeg_path self; "-hide_banner"; "-y"] ++
         decode_args self preset ++ ["-i"; input_path] ++
         filter_args self preset lut_path ++
         ["-c:v"; video_encoder self preset] ++ encoder_args self preset) ++
        ["-c:a"; "copy"] ++
        (if default true (p_faststart preset)
         then ["-movflags"; "+faststart"] else []) ++
        [output_path]).
Proof.
  intros Hcopy. rewrite build_gpu_command_command.
  unfold command, audio_args, container_args. rewrite Hcopy.
  rewrite <- !app_assoc. reflexivity.
Qed.

Lemma audio_copy_passes_through_witness :
  build_gpu_command (host false false) "in.mkv" "out.mp4"
                    (dict [k_encoder "libx264"; k_audio_codec "copy";
                           k_audio_bitrate "320k"]) None
  = Ok ["ffmpeg"; "-hide_banner"; "-y"; "-i"; "in.mkv";
        "-c:v"; "libx264"; "-preset"; "medium"; "-crf"; "23";
        "-c:a"; "copy"; "-movflags"; "+faststart"; "out.mp4"].
Proof.
  apply (audio_copy_passes_through (host false false) "in.mkv" "out.mp4"
           (dict [k_encoder "libx264"; k_audio_codec "copy";
                  k_audio_bitrate "320k"]) None).
  reflexivity.
Defined.

Lemma nvenc_level_valid (speed : string) :
  In (default "p4" (NVENC_PRESETS !! speed))
     ["p1"; "p2"; "p4"; "p5"; "p6"; "p7"].
Proof.
  destruct (NVENC_PRESETS !! speed) as [level|] eqn:Hlevel; simpl.
  - unfold NVENC_PRESETS in Hlevel. apply elem_of_list_to_map_2 in Hlevel.
    apply list_elem_of_In in Hlevel. simpl in Hlevel.
    decompose [or] Hlevel; simplify_eq; simpl; tauto.
  - tauto.
Qed.

(** X4.  With an NVENC encoder selected, the value of [-preset] is one of
    p1, p2, p4, p5, p6, p7 for every [speed] string, and p4 for a [speed]
    that is no key of [NVENC_PRESETS]; it stands right after the encoder
    and before [-rc]. *)
Theorem nvenc_preset_is_a_level (self : GPUPipeline)
    (input_path output_path : string) (preset : Preset)
    (lut_path : option string) :
  contains "nvenc" (video_encoder self preset) = true ->
  exists level back,
    In level ["p1"; "p2"; "p4"; "p5"; "p6"; "p7"] /\
    (NVENC_PRESETS !! default "medium" (p_speed preset) = None ->
     level = "p4") /\
    build_gpu_command self input_path output_path preset lut_path
    = Ok (([ffmpeg_path self; "-hide_banner"; "-y"] ++
           decode_args self preset ++ ["-i"; input_path] ++
           filter_args self preset lut_path) ++
          "-c:v" :: video_encoder self preset ::
          "-preset" :: level :: "-rc" :: back).
Proof.
  intros Hnvenc.
  exists (default "p4" (NVENC_PRESETS !! default "medium" (p_speed preset))).
  eexists. split; [apply nvenc_level_valid|]. split.
  - intros ->. reflexivity.
  - rewrite build_gpu_command_command. unfold command, encoder_args.
    rewrite Hnvenc. rewrite <- !app_assoc. reflexivity.
Qed.

Lemma nvenc_preset_is_a_level_witness :
  exists level back,
    In level ["p1"; "p2"; "p4"; "p5"; "p6"; "p7"] /\
    (NVENC_PRESETS !! default "medium" (p_speed (dict [k_speed "ludicrous"]))
     = None -> level = "p4") /\
    build_gpu_command (host true true) "in.mp4" "out.mp4"
                      (dict [k_speed "ludicrous"]) None
    = Ok ((["ffmpeg"; "-hide_banner"; "-y"] ++
           decode_args (host true true) (dict [k_speed "ludicrous"]) ++
           ["-i"; "in.mp4"] ++
           filter_args (host true true) (dict [k_speed "ludicrous"]) None) ++
          "-c:v" :: video_encoder (host true true) (dict [k_speed "ludicrous"])
          :: "-preset" :: level :: "-rc" :: back).
Proof.
  apply (nvenc_preset_is_a_level (host true true) "in.mp4" "out.mp4"
           (dict [k_speed "ludicrous"]) None).
  reflexivity.
Defined.

(** ** More on the catalog *)

Lemma catalog_keys_distinct : NoDup (PRESETS_literal.*1).
Proof. apply (bool_decide_unpack _). vm_compute. reflexivity. Qed.

Lemma catalog_lookup name p :
  PRESETS !! name = Some p <-> In (name, p) PRESETS_literal.
Proof.
  unfold PRESETS. rewrite <- list_elem_of_In. split.
  - apply elem_of_list_to_map_2.
  - apply elem_of_list_to_map_1, catalog_keys_distinct.
Qed.

Lemma catalog_missing name :
  PRESETS !! name = None <-> ~ In name list_presets.
Proof.
  unfold PRESETS, list_presets. rewrite <- list_elem_of_In.
  rewrite not_elem_of_list_to_map. reflexivity.
Qed.

Lemma get_preset_total name :
  exists p, get_preset name = Ok p /\ In p (map snd PRESETS_literal).
Proof.
  assert (Hdefault : exists fallback, PRESETS !! "default" = Some fallback)
    by (eexists; vm_compute; reflexivity).
  destruct Hdefault as [fallback Hdefault].
  unfold get_preset. rewrite Hdefault. simpl.
  destruct (PRESETS !! name) as [p|] eqn:Hp; simpl.
  - exists p. split; [reflexivity|]. apply catalog_lookup in Hp.
    exact (in_map snd PRESETS_literal (name, p) Hp).
  - exists fallback. split; [reflexivity|]. apply catalog_lookup in Hdefault.
    exact (in_map snd PRESETS_literal ("default", fallback) Hdefault).
Qed.

(** X5.  [list_presets] and [get_preset] agree: every entry of the catalog
    is returned for its own name, every listed name has an entry, and every
    name that is not listed gets what [get_preset("default")] returns. *)
Theorem listed_presets_resolve (name : string) :
  (forall p, In (name, p) PRESETS_literal -> get_preset name = Ok p) /\
  (In name list_presets -> exists p, In (name, p) PRESETS_literal) /\
  (~ In name list_presets -> get_preset name = get_preset "default").
Proof.
  assert (Hdefault : exists fallback, PRESETS !! "default" = Some fallback)
    by (eexists; vm_compute; reflexivity).
  destruct Hdefault as [fallback Hdefault].
  repeat split.
  - intros p Hp. apply catalog_lookup in Hp.
    unfold get_preset. rewrite Hdefault, Hp. reflexivity.
  - unfold list_presets. intros Hin. apply in_map_iff in Hin.
    destruct Hin as [[key p] [<- Hin]]. exists p. exact Hin.
  - intros Hout. apply catalog_missing in Hout.
    unfold get_preset. rewrite Hdefault, Hout. reflexivity.
Qed.

Lemma listed_presets_resolve_witness :
  (In "netflix" list_presets ->
   exists p, In ("netflix", p) PRESETS_literal) /\
  (~ In "Netflix" list_presets -> get_preset "Netflix" = get_preset "default").
Proof.
  split.
  - apply (listed_presets_resolve "netflix").
  - apply (listed_presets_resolve "Netflix").
Defined.

(** X6.  [get_preset_description] returns the text
    [No description available] exactly for the names that [list_presets]
    does not list. *)
Theorem description_fallback_only_for_unknown (name : string) :
  get_preset_description name = "No description available"
  <-> ~ In name list_presets.
Proof.
  rewrite <- catalog_missing. unfold get_preset_description. split.
  - destruct (PRESETS !! name) as [p|] eqn:Hp; [|reflexivity].
    intros Hdesc. exfalso. apply catalog_lookup in Hp.
    assert (Hall : forallb
              (fun p => negb (String.eqb
                 (default "No description available" (p_description p))
                 "No description available"))
              (map snd PRESETS_literal) = true) by (vm_compute; reflexivity).
    rewrite forallb_forall in Hall.
    specialize (Hall p (in_map snd _ _ Hp)). simpl in Hall, Hdesc.
    rewrite Hdesc in Hall. discriminate Hall.
  - intros ->. reflexivity.
Qed.

(** X7.  Whatever name is asked of [get_preset], known or not, and whatever
    the probe found, the command built from the returned preset selects an
    NVENC encoder named by the preset and passes it the NVENC options: the
    software fallback is never taken for a preset that comes from the
    catalog. *)
Theorem every_name_selects_nvenc (name : string) (self : GPUPipeline)
    (input_path output_path : string) (lut_path : option string) :
  exists preset encoder level back,
    get_preset name = Ok preset /\
    p_encoder preset = Some encoder /\
    contains "nvenc" encoder = true /\
    In level ["p1"; "p2"; "p4"; "p5"; "p6"; "p7"] /\
    build_gpu_command self input_path output_path preset lut_path
    = Ok (([ffmpeg_path self; "-hide_banner"; "-y"] ++
           decode_args self preset ++ ["-i"; input_path] ++
           filter_args self preset lut_path) ++
          "-c:v" :: encoder :: "-preset" :: level :: "-rc" :: back).
Proof.
  destruct (get_preset_total name) as [preset [Hget Hin]].
  assert (Hall : forallb
            (fun p => match p_encoder p with
                      | Some e => contains "nvenc" e
                      | None => false
                      end)
            (map snd PRESETS_literal) = true) by (vm_compute; reflexivity).
  rewrite forallb_forall in Hall. specialize (Hall preset Hin).
  destruct (p_encoder preset) as [encoder|] eqn:Henc; [|discriminate].
  exists preset, encoder,
    (default "p4" (NVENC_PRESETS !! default "medium" (p_speed preset))).
  eexists.
  split; [exact Hget|]. split; [exact Henc|]. split; [exact Hall|].
  split; [apply nvenc_level_valid|].
  rewrite build_gpu_command_command.
  unfold command, encoder_args, video_encoder.
  rewrite Henc. simpl default. rewrite Hall. rewrite <- !app_assoc.
  reflexivity.
Qed.

(** ** More on the wait loop *)

Section WaitOutcomes.
Context {W : Type} `{Network W}.

(** X8.  Whatever the network answers and whatever the callback does, a
    document that [wait_for_job] returns is a dict whose [status] is the
    string [completed]. *)
Theorem wait_for_job_returns_completed (fuel : nat) (self : AIDPClient)
    (job_id : string) (timeout poll_interval : Z)
    (progress_callback : option (json -> io W json))
    (w w' : W) (st : json) :
  wait_for_job fuel self job_id timeout poll_interval progress_callback w
  = (Ok st, w') ->
  getitem st "status" = Ok (PyStr "completed").
Proof.
  rewrite wait_for_job_unfold.
  generalize (fst (time_time w)) as start_time.
  generalize (snd (time_time w)) as w0. clear w.
  induction fuel as [|fuel IH]; intros w0 start_time.
  - discriminate.
  - rewrite wait_loop_unfold.
    destruct (get_job_status self job_id w0) as [[s| |] w1]; try discriminate.
    destruct (told progress_callback s w1) as [[s'| |] w2]; try discriminate.
    destruct (getitem s' "status") as [state| |] eqn:Hstate; try discriminate.
    destruct (eq_str state "completed") eqn:Hc.
    + intros Hret. injection Hret as <- _.
      apply eq_str_spec in Hc. rewrite Hstate, Hc. reflexivity.
    + destruct (eq_str state "failed").
      * destruct (get s' "error" (PyStr "Unknown error")); discriminate.
      * destruct (float_gt_int _ _); [discriminate|]. apply IH.
Qed.





End WaitOutcomes.

Lemma wait_for_job_returns_completed_witness :
  getitem (scripted.snapshot "completed" (Some "f1") None) "status"
  = Ok (PyStr "completed").
Proof.
  apply (wait_for_job_returns_completed (H := scripted.network studio)
           3 client "job-b" 3600 2 None scripted.start
           (snd (wait_for_job (H := scripted.network studio) 3 client "job-b"
                   3600 2 None scripted.start))).
  vm_compute. reflexivity.
Defined.

(** ** Traces of the client on a scripted network *)



Section Traces.
Import scripted.
Context (r : Remote).

Lemma wait_loop_trace fuel self job_id timeout poll_interval start_time w :
  let url := api_url self +:+ "/v1/jobs/" +:+ job_id in
  let run := wait_loop (H := network r) fuel self job_id timeout poll_interval
                       None start_time w in
  exists n,
    match fst run with
    | OutOfFuel =>
        n = fuel /\
        log (snd run) = log w ++ read_and_sleep url poll_interval n
    | _ =>
        n < fuel /\
        log (snd run)
        = log w ++ read_and_sleep url poll_interval n ++ [GotJob url]
    end.
Proof.
  intros url. revert w. induction fuel as [|fuel IH]; intros w run.
  - exists 0. subst run. simpl. rewrite app_nil_r. auto.
  - subst run. rewrite wait_loop_unfold, get_job_status_unfold.
    cbn [session_get_job network]. fold url.
    destruct (job_answers r url (reads url w)) as [resp|e]; cbn [played].
    2:{ exists 0. simpl. split; [lia | reflexivity]. }
    destruct (negb _).
    { exists 0. simpl. split; [lia | reflexivity]. }
    cbn [told mret io_ret].
    destruct (resp_body resp) as [members|v]; cbn [getitem get].
    2:{ exists 0. simpl. split; [lia | reflexivity]. }
    destruct (members !! "status") as [state|]; cbn [subscript].
    2:{ exists 0. simpl. split; [lia | reflexivity]. }
    destruct (eq_str state "completed").
    { exists 0. simpl. split; [lia | reflexivity]. }
    destruct (eq_str state "failed").
    { exists 0. simpl. split; [lia | reflexivity]. }
    cbn [time_time asyncio_sleep network fst snd].
    destruct (float_gt_int _ _).
    { exists 0. simpl. split; [lia | reflexivity]. }
    match goal with
    | |- context [wait_loop fuel self job_id timeout poll_interval None
                            start_time ?w1] =>
        destruct (IH w1) as [n Hn]; exists (S n);
        destruct (fst (wait_loop fuel self job_id timeout poll_interval None
                                 start_time w1));
        destruct Hn as [Hn ->]; (split; [lia|]);
        simpl; rewrite <- !app_assoc; reflexivity
    end.
Qed.

(** X10.  On every scripted network, a call of [wait_for_job] that ends
    has done nothing but read the status URL of its job and sleep: each
    read but the last is followed by one sleep of [poll_interval], and
    nothing follows the last read. *)
Theorem wait_for_job_cadence (fuel : nat) (self : AIDPClient)
    (job_id : string) (timeout poll_interval : Z) (w : World) :
  let url := api_url self +:+ "/v1/jobs/" +:+ job_id in
  let run := wait_for_job (H := network r) fuel self job_id timeout
                          poll_interval None w in
  fst run <> OutOfFuel ->
  exists n,
    n < fuel /\
    log (snd run)
    = log w ++ read_and_sleep url poll_interval n ++ [GotJob url].
Proof.
  intros url. cbv zeta. rewrite wait_for_job_unfold.
  cbn [time_time network fst snd]. intros Hends.
  destruct (wait_loop_trace fuel self job_id timeout poll_interval (now w) w)
    as [n Hn].
  exists n. fold url in Hn.
  destruct (fst (wait_loop fuel self job_id timeout poll_interval None
                           (now w) w)); try exact Hn.
  contradiction Hends. reflexivity.
Qed.









End Traces.

(** On a disk that is full, the download of a completed job raises after
    its file has been opened: the file is left behind, empty, and the
    batch run ends there. *)
Example batch_leaves_an_empty_file :
  fst (batch_process_wait (H := scripted.network (disk_full studio)) 3 client
         "out" [batch_job "job-b"] scripted.start)
  = Raise (Outside "OSError" "No space left on device") /\
  file_events
    (scripted.log
       (snd (batch_process_wait (H := scripted.network (disk_full studio)) 3
               client "out" [batch_job "job-b"] scripted.start)))
  = [scripted.Opened "out/job-b_processed.mp4";
     scripted.Closed "out/job-b_processed.mp4"].
Proof. split; vm_compute; reflexivity. Qed.

(** ** The probes *)

(** X13.  After construction [has_nvenc] is true exactly when both probe
    commands ran and the encoder list mentions [h264_nvenc], and
    [has_cuda] exactly when both ran and the filter list mentions
    [scale_cuda]: a failure of the filter probe also withdraws an NVENC
    that the encoder probe found. *)
Theorem probe_flags (run : Host) (path : string) :
  (has_nvenc (__init__ run path) = true <->
   exists encoders filters,
     run [path; "-hide_banner"; "-encoders"] = Some encoders /\
     run [path; "-hide_banner"; "-filters"] = Some filters /\
     contains "h264_nvenc" (stdout encoders) = true) /\
  (has_cuda (__init__ run path) = true <->
   exists encoders filters,
     run [path; "-hide_banner"; "-encoders"] = Some encoders /\
     run [path; "-hide_banner"; "-filters"] = Some filters /\
     contains "scale_cuda" (stdout filters) = true).
Proof.
  unfold __init__, _check_gpu_support. cbn [has_nvenc has_cuda].
  destruct (run [path; "-hide_banner"; "-encoders"]) as [encoders|];
    [destruct (run [path; "-hide_banner"; "-filters"]) as [filters|]|];
    cbn [fst snd]; split; split;
    try (intros E; discriminate E);
    try (intros [e [f [Ee [Ef Ec]]]]; congruence);
    eauto.
Qed.

(** X14.  When either probe command cannot be run, every preset compiles
    to software stages only and gets a command with no [-hwaccel] flags,
    in which [-i] follows [-y] directly and the encoder is the one the
    preset names, or [libx264]; a preset that names no encoder gets
    [libx264] with the CPU options [-preset] and [-crf]. *)
Theorem failed_probe_means_software (run : Host) (path : string)
    (input_path output_path : string) (preset : Preset)
    (lut_path : option string) :
  run [path; "-hide_banner"; "-encoders"] = None \/
  run [path; "-hide_banner"; "-filters"] = None ->
  (exists stages,
     filter_stages (__init__ run path) preset lut_path = Ok stages /\
     Forall (fun s => accelerated s = false /\ s <> Upload /\ s <> Download)
            stages) /\
  build_gpu_command (__init__ run path) input_path output_path preset lut_path
  = Ok ([path; "-hide_banner"; "-y"; "-i"; input_path] ++
        filter_args (__init__ run path) preset lut_path ++
        ["-c:v"; default "libx264" (p_encoder preset)] ++
        encoder_args (__init__ run path) preset ++
        audio_args preset ++ container_args preset ++ [output_path]) /\
  (p_encoder preset = None ->
   build_gpu_command (__init__ run path) input_path output_path preset
                     lut_path
   = Ok ([path; "-hide_banner"; "-y"; "-i"; input_path] ++
         filter_args (__init__ run path) preset lut_path ++
         ["-c:v"; "libx264";
          "-preset"; default "medium" (p_cpu_preset preset);
          "-crf"; str (default (PyInt 23) (p_crf preset))] ++
         audio_args preset ++ container_args preset ++ [output_path])).
Proof.
  intros Hfail.
  assert (Hflags : _check_gpu_support run path = (false, false)).
  { unfold _check_gpu_support.
    destruct (run [path; "-hide_banner"; "-encoders"]) as [encoders|];
      [|reflexivity].
    destruct Hfail as [Hfail|Hfail]; [discriminate Hfail|].
    rewrite Hfail. reflexivity. }
  unfold __init__. rewrite Hflags. cbn [fst snd]. split; [|split].
  - eexists. split; [apply filter_stages_pipeline|].
    apply pipeline_without_cuda. reflexivity.
  - rewrite build_gpu_command_command.
    unfold command, decode_args, video_encoder.
    cbn [has_nvenc ffmpeg_path]. rewrite andb_false_r. reflexivity.
  - intros Hnone. rewrite build_gpu_command_command.
    unfold command, decode_args, encoder_args, video_encoder.
    rewrite Hnone. cbn [has_nvenc ffmpeg_path default].
    rewrite andb_false_r. reflexivity.
Qed.

(** *** Splitting and stripping *)

Section Strings.
Import Stdlib.Strings.Ascii.


Lemma split_from_nonempty sep : forall s skip part,
  exists first rest, split_from sep skip part s = first :: rest.
Proof.
  induction s as [|c s IH]; intros skip part; cbn [split_from].
  - eauto.
  - destruct skip as [|k]; [|apply IH].
    destruct (String.prefix sep (String c s)); [eauto | apply IH].
Qed.

Lemma prefix_cons a s1 b s2 :
  String.prefix (String a s1) (String b s2)
  = if Ascii.ascii_dec a b then String.prefix s1 s2 else false.
Proof. reflexivity. Qed.

Lemma prefix_nil s : String.prefix EmptyString s = true.
Proof. destruct s; reflexivity. Qed.

Lemma no_separator_at_head (c : Ascii.ascii) (f rest : string) :
  String.prefix ", " (String c f) = false ->
  String.prefix ", " (String c (f +:+ ", " +:+ rest)) = false.
Proof.
  rewrite !prefix_cons. destruct (Ascii.ascii_dec _ c); [|reflexivity].
  destruct f as [|d f]; cbv [String.append].
  - intros _. rewrite prefix_cons.
    destruct (Ascii.ascii_dec _ _) as [E|]; [discriminate E | reflexivity].
  - rewrite !prefix_cons. destruct (Ascii.ascii_dec _ d); [|reflexivity].
    rewrite !prefix_nil. intros E. exact E.
Qed.

Lemma separator_here (rest : string) :
  String.prefix ", " (String ","%char (String " "%char rest)) = true.
Proof.
  rewrite !prefix_cons, prefix_nil.
  repeat (destruct (Ascii.ascii_dec _ _); [|congruence]). reflexivity.
Qed.

Lemma contains_cons needle c s :
  contains needle (String c s) = false ->
  String.prefix needle (String c s) = false /\ contains needle s = false.
Proof. cbn [contains]. apply orb_false_iff. Qed.

Lemma split_field : forall f part rest,
  contains ", " f = false ->
  split_from ", " 0 part (f +:+ ", " +:+ rest)
  = string_of_list_ascii (rev part ++ list_ascii_of_string f) ::
    split_from ", " 0 [] rest.
Proof.
  induction f as [|c f IH]; intros part rest Hclean.
  - change (EmptyString +:+ ", " +:+ rest)
      with (String ","%char (String " "%char rest)).
    cbn [split_from]. rewrite separator_here.
    cbn [list_ascii_of_string]. rewrite app_nil_r. reflexivity.
  - apply contains_cons in Hclean. destruct Hclean as [Hhead Hclean].
    change (String c f +:+ ", " +:+ rest)
      with (String c (f +:+ ", " +:+ rest)).
    cbn [split_from]. rewrite (no_separator_at_head c f rest Hhead).
    rewrite (IH (c :: part) rest Hclean).
    cbn [rev list_ascii_of_string]. rewrite <- app_assoc. reflexivity.
Qed.

Lemma split_last_field : forall f part,
  contains ", " f = false ->
  split_from ", " 0 part f
  = [string_of_list_ascii (rev part ++ list_ascii_of_string f)].
Proof.
  induction f as [|c f IH]; intros part Hclean.
  - cbn [split_from list_ascii_of_string]. rewrite app_nil_r. reflexivity.
  - apply contains_cons in Hclean. destruct Hclean as [Hhead Hclean].
    cbn [split_from]. rewrite Hhead, (IH (c :: part) Hclean).
    cbn [rev list_ascii_of_string]. rewrite <- app_assoc. reflexivity.
Qed.

Lemma split_three_fields (a b c : string) :
  contains ", " a = false -> contains ", " b = false ->
  contains ", " c = false ->
  split ", " (a +:+ ", " +:+ b +:+ ", " +:+ c) = [a; b; c].
Proof.
  intros Ha Hb Hc. unfold split.
  rewrite (split_field a [] _ Ha), (split_field b [] _ Hb),
    (split_last_field c [] Hc).
  simpl. rewrite !string_of_list_ascii_of_string. reflexivity.
Qed.

Lemma append_assoc (a b c : string) : (a +:+ b) +:+ c = a +:+ (b +:+ c).
Proof.
  induction a as [|x a IH]; [reflexivity|].
  change (String x ((a +:+ b) +:+ c) = String x (a +:+ (b +:+ c))).
  rewrite IH. reflexivity.
Qed.

Lemma lstrip_length s : String.length (lstrip s) <= String.length s.
Proof.
  induction s as [|c s IH]; simpl; [lia|].
  destruct (isspace c); simpl; lia.
Qed.

Lemma lstrip_kept (a rest : string) :
  lstrip a = a -> lstrip (a +:+ ", " +:+ rest) = a +:+ ", " +:+ rest.
Proof.
  destruct a as [|c a]; [reflexivity|]. simpl.
  destruct (isspace c); [|reflexivity].
  intros E. pose proof (lstrip_length a) as Hlen. rewrite E in Hlen.
  simpl in Hlen. lia.
Qed.

Lemma rstrip_app : forall a b,
  rstrip (a +:+ b)
  = match rstrip b with
    | EmptyString => rstrip a
    | kept => a +:+ kept
    end.
Proof.
  induction a as [|c a IH]; intros b.
  - change (EmptyString +:+ b) with b. destruct (rstrip b); reflexivity.
  - change (String c a +:+ b) with (String c (a +:+ b)).
    cbn [rstrip]. rewrite IH.
    destruct (rstrip b) as [|k kept]; [reflexivity|].
    destruct a; reflexivity.
Qed.

Lemma strip_line (a tail d ws : string) :
  lstrip a = a -> rstrip d = d -> d <> EmptyString ->
  rstrip ws = EmptyString ->
  strip (a +:+ ", " +:+ tail +:+ d +:+ ws) = a +:+ ", " +:+ tail +:+ d.
Proof.
  intros Ha Hd Hne Hws. unfold strip.
  replace (a +:+ ", " +:+ tail +:+ d +:+ ws)
    with (a +:+ ", " +:+ (tail +:+ d +:+ ws)).
  2:{ rewrite <- !append_assoc. reflexivity. }
  rewrite (lstrip_kept a _ Ha).
  replace (a +:+ ", " +:+ (tail +:+ d +:+ ws))
    with ((a +:+ ", " +:+ tail) +:+ (d +:+ ws)).
  2:{ rewrite <- !append_assoc. reflexivity. }
  rewrite rstrip_app, (rstrip_app d ws), Hws, Hd.
  destruct d as [|c d]; [contradiction Hne; reflexivity|].
  rewrite <- !append_assoc. reflexivity.
Qed.

End Strings.

(** X15.  [get_gpu_info] reports NVENC, and CUDA filters, as available
    exactly when the probe found them and [nvidia-smi] ran and exited 0:
    without [nvidia-smi] it reports both as unavailable even where the
    probe found them. *)
Theorem gpu_info_needs_nvidia_smi (run : Host) (self : GPUPipeline) :
  (nvenc_available (get_gpu_info run self) = true <->
   has_nvenc self = true /\
   exists result,
     run ["nvidia-smi"; "--query-gpu=name,memory.total,driver_version";
          "--format=csv,noheader"] = Some result /\
     returncode result = 0%Z) /\
  (cuda_filters_available (get_gpu_info run self) = true <->
   has_cuda self = true /\
   exists result,
     run ["nvidia-smi"; "--query-gpu=name,memory.total,driver_version";
          "--format=csv,noheader"] = Some result /\
     returncode result = 0%Z).
Proof.
  unfold get_gpu_info.
  destruct (run _) as [result|]; [destruct (returncode result =? 0)%Z eqn:Hrc|];
    cbn [nvenc_available cuda_filters_available]; split; split.
  all: try (intros E; discriminate E).
  all: try (intros [_ [res [Hres Hzero]]]; try discriminate Hres;
            injection Hres as <-; apply Z.eqb_neq in Hrc; contradiction).
  all: try (intros [Hflag _]; exact Hflag).
  all: intros Hflag; split; [exact Hflag|]; exists result; split;
    [reflexivity | apply Z.eqb_eq, Hrc].
Qed.

(** X16.  When [nvidia-smi] exits 0, the stripped output split at [", "]
    always has a first part, and that part is the [name], be it empty: the
    default [Unknown] of [name] is never used.  [memory] and [driver] are
    the second and third parts, and [Unknown] where the output has fewer
    parts. *)
Theorem gpu_info_parts (run : Host) (self : GPUPipeline)
    (result : CompletedProcess) :
  run ["nvidia-smi"; "--query-gpu=name,memory.total,driver_version";
       "--format=csv,noheader"] = Some result ->
  returncode result = 0%Z ->
  exists rest,
    split ", " (strip (stdout result))
    = name (get_gpu_info run self) :: rest /\
    memory (get_gpu_info run self)
    = Some match rest with m :: _ => m | [] => "Unknown" end /\
    driver (get_gpu_info run self)
    = Some match rest with _ :: d :: _ => d | _ => "Unknown" end.
Proof.
  intros Hrun Hzero. unfold get_gpu_info. rewrite Hrun, Hzero.
  cbn [Z.eqb name memory driver]. unfold split.
  destruct (split_from_nonempty ", " (strip (stdout result)) 0 [])
    as [first [rest ->]].
  exists rest. destruct rest as [|m [|d rest]]; repeat split.
Qed.

(** X17.  When [nvidia-smi] exits 0 and prints a name, a memory size and a
    driver version separated by [", "], followed by white space only, then
    [get_gpu_info] returns exactly these three fields and the two flags of
    the probe; the fields hold no [", "], the name does not begin and the
    driver version does not end with white space. *)
Theorem gpu_info_reads_a_line (run : Host) (self : GPUPipeline)
    (result : CompletedProcess) (gpu mem drv ws : string) :
  run ["nvidia-smi"; "--query-gpu=name,memory.total,driver_version";
       "--format=csv,noheader"] = Some result ->
  returncode result = 0%Z ->
  stdout result = gpu +:+ ", " +:+ mem +:+ ", " +:+ drv +:+ ws ->
  contains ", " gpu = false -> contains ", " mem = false ->
  contains ", " drv = false ->
  lstrip gpu = gpu -> rstrip drv = drv -> drv <> EmptyString ->
  rstrip ws = EmptyString ->
  get_gpu_info run self
  = {| name := gpu; memory := Some mem; driver := Some drv;
       nvenc_available := has_nvenc self;
       cuda_filters_available := has_cuda self |}.
Proof.
  intros Hrun Hzero Hout Hgpu Hmem Hdrv Hleft Hright Hne Hws.
  unfold get_gpu_info. rewrite Hrun, Hzero, Hout.
  rewrite <- (append_assoc mem ", " (drv +:+ ws)).
  rewrite (strip_line gpu (mem +:+ ", ") drv ws Hleft Hright Hne Hws).
  replace (gpu +:+ ", " +:+ (mem +:+ ", ") +:+ drv)
    with (gpu +:+ ", " +:+ mem +:+ ", " +:+ drv)
    by (rewrite !append_assoc; reflexivity).
  rewrite (split_three_fields gpu mem drv Hgpu Hmem Hdrv). reflexivity.
Qed.

(** ** Hashing a file in chunks *)

Lemma append_nil_r (s : string) : s +:+ EmptyString = s.
Proof.
  induction s as [|c s IH]; [reflexivity|].
  change (String c (s +:+ EmptyString) = String c s). rewrite IH. reflexivity.
Qed.

Lemma cut_spec : forall n s,
  fst (cut n s) +:+ snd (cut n s) = s /\
  String.length (snd (cut n s)) <= String.length s.
Proof.
  induction n as [|n IH]; intros s.
  - destruct s; simpl; split; reflexivity || lia.
  - destruct s as [|c s]; [simpl; split; reflexivity || lia|].
    destruct (IH s) as [Happ Hlen]. cbn [cut fst snd]. split.
    + change (String c (fst (cut n s) +:+ snd (cut n s)) = String c s).
      rewrite Happ. reflexivity.
    + simpl. lia.
Qed.

(** With a chunk size that [read] accepts and that is not 0, the loop
    feeds the whole file. *)
Lemma feed_everything (chunk_size : Z) :
  (0 < chunk_size)%Z \/ chunk_size = (-1)%Z ->
  forall fuel fed unread,
    String.length unread < fuel ->
    feed fuel chunk_size fed unread = Ok (fed +:+ unread).
Proof.
  intros Hsize. induction fuel as [|fuel IH]; intros fed unread Hfuel; [lia|].
  cbn [feed]. unfold file_read.
  destruct (chunk_size <? -1)%Z eqn:Hbad; [lia|].
  destruct (chunk_size <? 0)%Z eqn:Hneg; cbn [mbind result_bind fst snd].
  - destruct unread as [|c unread]; cbn [truthy truthy_string].
    + rewrite append_nil_r. reflexivity.
    + rewrite IH by (simpl in *; lia). apply f_equal, append_nil_r.
  - destruct (Z.to_nat chunk_size) as [|n] eqn:Hn; [lia|].
    destruct unread as [|c unread]; cbn [cut fst snd truthy truthy_string].
    + rewrite append_nil_r. reflexivity.
    + destruct (cut_spec n unread) as [Happ Hlen].
      rewrite IH by (simpl in *; lia). rewrite append_assoc.
      change (String c (fst (cut n unread)) +:+ snd (cut n unread))
        with (String c (fst (cut n unread) +:+ snd (cut n unread))).
      rewrite Happ. reflexivity.
Qed.

Lemma hash_file_chunking_any (hexdigest : string -> string) (fuel : nat)
    (content : string) :
  String.length content < fuel ->
  _hash_file hexdigest fuel content 65536 = Ok (hexdigest content).
Proof.
  intros Hfuel. unfold _hash_file.
  rewrite (feed_everything 65536 ltac:(left; reflexivity) fuel EmptyString
             content Hfuel).
  reflexivity.
Qed.



(** ** Staging a file and submitting a job *)

Section StagingFacts.
Context {W : Type} `{Staging W}.

(** X19.  [upload_file] advertises, and returns, the digest of the whole
    file: when the storage answers 200 to the stage request that carries
    the base name of the path, the size and that digest, and 200 or 201 to
    the transfer to the URL it gave, the call returns the identifier and
    the storage URL of the answer together with that digest. *)
Theorem upload_file_stages_the_digest (hexdigest : string -> string)
    (fuel : nat) (self : AIDPClient) (file_path content put_url : string)
    (size code : Z) (resp : Response UploadInfo) (file_id storage_url : string)
    (w w1 w2 w3 w4 : W) :
  file_bytes file_path w = (content, w1) ->
  String.length content < fuel ->
  os_path_getsize file_path w1 = (size, w2) ->
  session_post_upload (api_url self +:+ "/v1/storage/upload")
    {| rq_filename := basename file_path; rq_size := size;
       rq_hash := hexdigest content; rq_type := "video" |} w2
  = (resp, w3) ->
  resp_status resp = 200%Z ->
  ui_upload_url (resp_body resp) = Some put_url ->
  session_put put_url file_path w3 = (code, w4) ->
  code = 200%Z \/ code = 201%Z ->
  ui_file_id (resp_body resp) = Some file_id ->
  ui_storage_url (resp_body resp) = Some storage_url ->
  upload_file hexdigest fuel self file_path w
  = (Ok {| up_file_id := file_id; up_storage_url := storage_url;
           up_hash := hexdigest content |}, w4).
Proof.
  intros Hbytes Hfuel Hsize Hpost Hok Hurl Hput Hcode Hid Hstore.
  unfold upload_file, mbind, io_bind at 1, ask. rewrite Hbytes. cbn [fst snd].
  unfold io_bind at 1, pure.
  rewrite (hash_file_chunking_any hexdigest fuel content Hfuel).
  unfold io_bind at 1. rewrite Hsize. cbn [fst snd].
  unfold io_bind at 1. rewrite Hpost. cbn [fst snd]. rewrite Hok.
  cbn [Z.eqb Pos.eqb negb].
  unfold io_bind at 1. rewrite Hurl. cbn [subscript].
  unfold io_bind at 1. rewrite Hput. cbn [fst snd].
  assert (Hgood : negb ((code =? 200)%Z || (code =? 201)%Z) = false)
    by (destruct Hcode as [-> | ->]; reflexivity).
  rewrite Hgood.
  unfold io_bind at 1. rewrite Hid. cbn [subscript].
  unfold io_bind at 1. rewrite Hstore. reflexivity.
Qed.

(** X20.  When a LUT is given and staging it raises, [submit_job] raises
    the same exception and ends in the state the failed staging left: the
    job is not submitted. *)
Theorem submit_job_aborts_on_lut_failure (hexdigest : string -> string)
    (fuel : nat) (self : AIDPClient) (input_file_id : string)
    (preset : Preset) (lut : string) (gpu_node : option string)
    (priority : string) (e : exn) (w w' : W) :
  lut <> EmptyString ->
  upload_file hexdigest fuel self lut w = (Raise e, w') ->
  submit_job hexdigest fuel self input_file_id preset (Some lut) gpu_node
             priority w
  = (Raise e, w').
Proof.
  intros Hlut Hfail. apply truthy_string_nonempty in Hlut.
  unfold submit_job, mbind. rewrite Hlut.
  unfold io_bind at 1. unfold io_bind at 1. rewrite Hfail. reflexivity.
Qed.

End StagingFacts.

(** ** Runs on concrete inputs *)


Lemma wait_for_job_cadence_witness :
  exists n,
    n < 3 /\
    scripted.log
      (snd (wait_for_job (H := scripted.network studio) 3 client "job-b"
              3600 2 None scripted.start))
    = scripted.log scripted.start ++
      read_and_sleep (api_url client +:+ "/v1/jobs/" +:+ "job-b") 2 n ++
      [scripted.GotJob (api_url client +:+ "/v1/jobs/" +:+ "job-b")].
Proof.
  apply (wait_for_job_cadence studio 3 client "job-b" 3600 2 scripted.start).
  vm_compute. discriminate.
Defined.

Lemma failed_probe_means_software_witness :
  (exists stages,
     filter_stages (__init__ hosts.bare "ffmpeg") scenario_preset None
     = Ok stages /\
     Forall (fun s => accelerated s = false /\ s <> Upload /\ s <> Download)
            stages) /\
  build_gpu_command (__init__ hosts.bare "ffmpeg") "in.mp4" "out.mp4"
                    scenario_preset None
  = Ok (["ffmpeg"; "-hide_banner"; "-y"; "-i"; "in.mp4"] ++
        filter_args (__init__ hosts.bare "ffmpeg") scenario_preset None ++
        ["-c:v"; default "libx264" (p_encoder scenario_preset)] ++
        encoder_args (__init__ hosts.bare "ffmpeg") scenario_preset ++
        audio_args scenario_preset ++ container_args scenario_preset ++
        ["out.mp4"]) /\
  (p_encoder scenario_preset = None ->
   build_gpu_command (__init__ hosts.bare "ffmpeg") "in.mp4" "out.mp4"
                     scenario_preset None
   = Ok (["ffmpeg"; "-hide_banner"; "-y"; "-i"; "in.mp4"] ++
         filter_args (__init__ hosts.bare "ffmpeg") scenario_preset None ++
         ["-c:v"; "libx264";
          "-preset"; default "medium" (p_cpu_preset scenario_preset);
          "-crf"; str (default (PyInt 23) (p_crf scenario_preset))] ++
         audio_args scenario_preset ++ container_args scenario_preset ++
         ["out.mp4"])).
Proof.
  apply (failed_probe_means_software hosts.bare "ffmpeg" "in.mp4" "out.mp4"
           scenario_preset None).
  left. reflexivity.
Defined.

(** On a host without a working probe, the scenario preset, which names
    [h264_nvenc], is compiled to the two software filters, and a preset
    that names no encoder to [libx264]. *)
Example failed_probe_commands :
  build_gpu_command (__init__ hosts.bare "ffmpeg") "in.mp4" "out.mp4"
                    scenario_preset None
  = Ok ["ffmpeg"; "-hide_banner"; "-y"; "-i"; "in.mp4";
        "-vf"; "scale=1920:1080,yadif=0:-1:0";
        "-c:v"; "h264_nvenc"; "-preset"; "p4"; "-rc"; "vbr"; "-cq"; "23";
        "-b:v"; "0"; "-maxrate"; "50M"; "-bufsize"; "100M"; "-bf"; "3";
        "-c:a"; "aac"; "-b:a"; "128k"; "-ar"; "48000";
        "-movflags"; "+faststart"; "out.mp4"] /\
  build_gpu_command (__init__ hosts.bare "ffmpeg") "in.mp4" "out.mp4"
                    (dict [k_scale (PyInt 1280, PyInt 720)]) None
  = Ok ["ffmpeg"; "-hide_banner"; "-y"; "-i"; "in.mp4";
        "-vf"; "scale=1280:720";
        "-c:v"; "libx264"; "-preset"; "medium"; "-crf"; "23";
        "-c:a"; "aac"; "-b:a"; "128k"; "-ar"; "48000";
        "-movflags"; "+faststart"; "out.mp4"].
Proof. split; vm_compute; reflexivity. Qed.

Lemma gpu_info_parts_witness :
  exists rest,
    split ", " (strip ("NVIDIA GeForce RTX 3090, 24576 MiB, 535.54" +:+
                       hosts.newline))
    = name (get_gpu_info hosts.workstation (host true true)) :: rest /\
    memory (get_gpu_info hosts.workstation (host true true))
    = Some match rest with m :: _ => m | [] => "Unknown" end /\
    driver (get_gpu_info hosts.workstation (host true true))
    = Some match rest with _ :: d :: _ => d | _ => "Unknown" end.
Proof.
  apply (gpu_info_parts hosts.workstation (host true true)
           {| returncode := 0;
              stdout := "NVIDIA GeForce RTX 3090, 24576 MiB, 535.54" +:+
                        hosts.newline;
              stderr := EmptyString |}).
  - reflexivity.
  - reflexivity.
Defined.

Lemma gpu_info_reads_a_line_witness :
  get_gpu_info hosts.workstation (host true false)
  = {| name := "NVIDIA GeForce RTX 3090"; memory := Some "24576 MiB";
       driver := Some "535.54";
       nvenc_available := true; cuda_filters_available := false |}.
Proof.
  apply (gpu_info_reads_a_line hosts.workstation (host true false)
           {| returncode := 0;
              stdout := "NVIDIA GeForce RTX 3090, 24576 MiB, 535.54" +:+
                        hosts.newline;
              stderr := EmptyString |}
           "NVIDIA GeForce RTX 3090" "24576 MiB" "535.54" hosts.newline).
  - reflexivity.
  - reflexivity.
  - reflexivity.
  - reflexivity.
  - reflexivity.
  - reflexivity.
  - reflexivity.
  - reflexivity.
  - discriminate.
  - reflexivity.
Defined.

Lemma upload_file_stages_the_digest_witness :
  upload_file (H := staged.storage staged.roomy)
    (fun data => "sha256:" +:+ data) 5 client "luts/Teal_Orange.cube"
    scripted.start
  = (Ok {| up_file_id := "f9"; up_storage_url := "aidp://f9";
           up_hash := "sha256:abcd" |},
     scripted.elapse 1 (scripted.elapse 1 scripted.start)).
Proof.
  apply (upload_file_stages_the_digest
           (H := staged.storage staged.roomy)
           (fun data => "sha256:" +:+ data) 5 client "luts/Teal_Orange.cube"
           "abcd" "https://put.aidp.store/f9" 4 201
           (staged.stage_answer staged.roomy) "f9" "aidp://f9"
           scripted.start scripted.start scripted.start
           (scripted.elapse 1 scripted.start)
           (scripted.elapse 1 (scripted.elapse 1 scripted.start))).
  - reflexivity.
  - simpl. lia.
  - reflexivity.
  - reflexivity.
  - reflexivity.
  - reflexivity.
  - reflexivity.
  - right. reflexivity.
  - reflexivity.
  - reflexivity.
Defined.

Lemma submit_job_aborts_on_lut_failure_witness :
  submit_job (H := staged.storage staged.full_disk)
    (fun data => "sha256:" +:+ data) 5 client "f1" (dict [])
    (Some "grade.cube") None "normal" scripted.start
  = (Raise (AIDPError "Upload request failed: Insufficient Storage"),
     scripted.elapse 1 scripted.start).
Proof.
  apply (submit_job_aborts_on_lut_failure
           (H := staged.storage staged.full_disk)
           (fun data => "sha256:" +:+ data) 5 client "f1" (dict [])
           "grade.cube" None "normal").
  - discriminate.
  - vm_compute. reflexivity.
Defined.
